(** * Property Geocode Checker: a shallow embedding of [geocode_check.py]

    The development follows the layout of the Python module:

    - [Text]      the [str] methods the program calls ([strip], [split],
                  [join], [upper], [lower]);
    - [F64]       binary64 floats, on the Standard Library's [SpecFloat];
    - [Py]        Python values, exceptions and the built-in conversions
                  ([str], [int], [bool], [float]) the program applies to them;
    - [Geo]       [_parse_float], [_is_valid_lat_lng], [_haversine_meters];
    - [Provider]  [geocode_address] and [_ambiguous_reason];
    - [Cache]     [_normalize_address], [_load_cache] and the two entry
                  conversions;
    - [Env]       [_load_env_file_if_present];
    - [Run]       [_required_column], [geocode_with_cache], the row loop
                  and [main];
    - [Demo], [Notions], [RunNotions]  sample inputs and the notions the
                  statements use.

    The theorems follow, one section per component, the statements
    numbered C1 to C10 after the properties they settle, and X1 to X28
    for further properties of the code: column resolution, cache keys
    and documents, the provider client, the ledger of lookups, requests
    and delays, the mismatch file, the options, the [.env] loader and
    the outcome of a row in each branch of the loop body.

    What the model covers.  Exceptions are explicit: a computation is a
    value or a raised exception ([Py.res]), and [try/except Exception]
    is [Py.try_except].  The variables [main] updates while it reads
    rows are a record ([Run.State]) passed from row to row, together
    with the requests sent and the delays taken.  The world outside the
    program (environment, cache file, CSV content, provider) is a record
    of inputs ([Run.World]).

    What it leaves out.  Argument parsing ([main] starts from the
    parsed arguments, and from the value the credential has once the
    [.env] file was loaded; the loader itself is modelled on its own, on
    an explicit environment); the diagnostic lines on standard error;
    failures to open the input or to write the outputs; rows with more
    cells than the header.  The C library's [errno] is not modelled: the
    [math] functions report errors from their results alone.

    Text is [String.string], read as a sequence of ASCII code points: the
    case mappings and the whitespace class are those of Python on code
    points below 128, and characters above are left alone by both. *)

From Stdlib Require Import ZArith List String Ascii Bool Lia.
From Stdlib Require Import SpecFloat DecimalString.
Import ListNotations.

Local Open Scope string_scope.
Local Open Scope Z_scope.

(* ================================================================== *)
(** * Text: the [str] methods used by the program                      *)
(* ================================================================== *)

Module Text.

(** [str.isspace] on one character: TAB, LF, VT, FF, CR, the four
    separators FS, GS, RS, US, and the space. *)
Definition is_space (c : ascii) : bool :=
  let n := nat_of_ascii c in
  ((9 <=? n) && (n <=? 13))%nat || ((28 <=? n) && (n <=? 32))%nat.

Definition is_lower (c : ascii) : bool :=
  let n := nat_of_ascii c in ((97 <=? n) && (n <=? 122))%nat.

Definition is_upper (c : ascii) : bool :=
  let n := nat_of_ascii c in ((65 <=? n) && (n <=? 90))%nat.

Definition is_digit (c : ascii) : bool :=
  let n := nat_of_ascii c in ((48 <=? n) && (n <=? 57))%nat.

Definition upper_char (c : ascii) : ascii :=
  if is_lower c then ascii_of_nat (nat_of_ascii c - 32) else c.

Definition lower_char (c : ascii) : ascii :=
  if is_upper c then ascii_of_nat (nat_of_ascii c + 32) else c.

Fixpoint map_chars (f : ascii -> ascii) (s : string) : string :=
  match s with
  | EmptyString => EmptyString
  | String c s' => String (f c) (map_chars f s')
  end.

(** [s.upper()] and [s.lower()]. *)
Definition upper (s : string) : string := map_chars upper_char s.
Definition lower (s : string) : string := map_chars lower_char s.

Definition is_empty (s : string) : bool :=
  match s with EmptyString => true | _ => false end.

(** [s.lstrip()], [s.rstrip()] and [s.strip()] with no argument. *)
Fixpoint lstrip (s : string) : string :=
  match s with
  | EmptyString => EmptyString
  | String c s' => if is_space c then lstrip s' else s
  end.

Fixpoint rstrip (s : string) : string :=
  match s with
  | EmptyString => EmptyString
  | String c s' =>
      let r := rstrip s' in
      if is_space c && is_empty r then EmptyString else String c r
  end.

Definition strip (s : string) : string := rstrip (lstrip s).

(** The whitespace that [float] and [int] skip around a literal: TAB, LF,
    VT, FF, CR and the space, without the four separators. *)
Definition is_literal_space (c : ascii) : bool :=
  let n := nat_of_ascii c in
  ((9 <=? n) && (n <=? 13))%nat || (n =? 32)%nat.

Fixpoint skip_literal_space (s : string) : string :=
  match s with
  | EmptyString => EmptyString
  | String c s' => if is_literal_space c then skip_literal_space s' else s
  end.

Fixpoint drop_literal_space (s : string) : string :=
  match s with
  | EmptyString => EmptyString
  | String c s' =>
      let r := drop_literal_space s' in
      if is_literal_space c && is_empty r then EmptyString else String c r
  end.

Definition strip_literal (s : string) : string :=
  drop_literal_space (skip_literal_space s).

(** [s.split()] with no argument: the maximal runs of non-whitespace
    characters, in order; never an empty word. *)
Fixpoint split (s : string) : list string :=
  match s with
  | EmptyString => []
  | String c s' =>
      if is_space c then split s'
      else
        match s' with
        | EmptyString => [String c EmptyString]
        | String d _ =>
            if is_space d then String c EmptyString :: split s'
            else
              match split s' with
              | w :: ws => String c w :: ws
              | [] => [String c EmptyString]
              end
        end
  end.

(** [sep.join(words)]. *)
Definition join (sep : string) (words : list string) : string :=
  String.concat sep words.

(** [x in names] for a list of strings. *)
Fixpoint mem (x : string) (names : list string) : bool :=
  match names with
  | [] => false
  | y :: names' => String.eqb x y || mem x names'
  end.

(** [str(n)] for an [int]. *)
Definition of_Z (n : Z) : string := NilZero.string_of_int (Z.to_int n).

End Text.

(* ================================================================== *)
(** * Binary64 floating point, as Python's [float]                     *)
(* ================================================================== *)

Module F64.

Definition prec : Z := 53.
Definition emax : Z := 1024.

(** A Python [float] is an IEEE 754 binary64 number. *)
Definition float : Type := spec_float.

Definition add : float -> float -> float := SFadd prec emax.
Definition sub : float -> float -> float := SFsub prec emax.
Definition mul : float -> float -> float := SFmul prec emax.
Definition div : float -> float -> float := SFdiv prec emax.
Definition sqrt : float -> float := SFsqrt prec emax.
Definition opp : float -> float := SFopp.
Definition leb : float -> float -> bool := SFleb.
Definition ltb : float -> float -> bool := SFltb.
Definition eqb : float -> float -> bool := SFeqb.
Definition valid : float -> bool := valid_binary prec emax.

Definition nan : float := S754_nan.
Definition inf (negative : bool) : float := S754_infinity negative.
Definition zero : float := S754_zero false.

Definition is_nan (x : float) : bool :=
  match x with S754_nan => true | _ => false end.

Definition is_inf (x : float) : bool :=
  match x with S754_infinity _ => true | _ => false end.

Definition is_finite (x : float) : bool :=
  match x with S754_zero _ | S754_finite _ _ _ => true | _ => false end.

Definition is_zero (x : float) : bool :=
  match x with S754_zero _ => true | _ => false end.

(** The float nearest to an integer (ties to even). *)
Definition of_Z (n : Z) : float := binary_normalize prec emax n 0 false.

(** The float nearest to [sign * m * 10^e], for [0 <= m]: the value of a
    decimal literal, rounded once (ties to even). *)
Definition of_decimal (negative : bool) (m e : Z) : float :=
  match m * 10 ^ Z.max e 0 with
  | Zpos num =>
      div (S754_finite negative num 0)
          (S754_finite false (Z.to_pos (10 ^ Z.max (- e) 0)) 0)
  | _ => S754_zero negative
  end.

(** Truncation toward zero of a finite float. *)
Definition trunc (x : float) : Z :=
  match x with
  | S754_finite s m e =>
      let a := if 0 <=? e then Z.shiftl (Zpos m) e else Z.shiftr (Zpos m) (- e) in
      if s then - a else a
  | _ => 0
  end.

(** The constants of the program. *)
Definition c90 : float := Eval cbv in of_Z 90.
Definition c180 : float := Eval cbv in of_Z 180.
Definition one : float := Eval cbv in of_Z 1.
Definition two : float := Eval cbv in of_Z 2.
(** [math.pi] = 0x1.921fb54442d18p+1 *)
Definition pi : float := S754_finite false 7074237752028440 (-51).
(** Earth radius, 6371000.0 *)
Definition earth_radius : float := Eval cbv in of_Z 6371000.

End F64.

(* ================================================================== *)
(** * Python values, exceptions and built-in conversions               *)
(* ================================================================== *)

Module Py.

Import F64.

(** The exception classes the program can meet.  All of them derive from
    [Exception]; [SystemExit] does not, and an [except Exception] clause
    lets it through. *)
Inductive exc : Type :=
| ValueError | TypeError | AttributeError | OverflowError
| ZeroDivisionError | OSError.

Inductive raised : Type :=
| Exc (e : exc)
| SystemExit (arg : string).

(** The outcome of running a piece of code: a value, or an exception
    on its way up. *)
Inductive res (A : Type) : Type :=
| Ok (a : A)
| Raise (r : raised).
Arguments Ok {A} a.
Arguments Raise {A} r.

Definition bind {A B : Type} (m : res A) (k : A -> res B) : res B :=
  match m with
  | Ok a => k a
  | Raise r => Raise r
  end.

(** [try: body  except Exception: handler]. *)
Definition try_except {A : Type} (body : res A) (handler : exc -> res A) : res A :=
  match body with
  | Raise (Exc e) => handler e
  | other => other
  end.

(** A Python object, as far as JSON documents and the program's own
    records need them. *)
#[local] Unset Elimination Schemes.
Inductive pyval : Type :=
| VNone
| VBool (b : bool)
| VInt (n : Z)
| VFloat (x : float)
| VStr (s : string)
| VList (items : list pyval)
| VDict (fields : list (string * pyval)).
#[local] Set Elimination Schemes.

(** A [dict] with string keys, in insertion order, one binding per key. *)
Definition dict (V : Type) : Type := list (string * V).

Fixpoint dict_get {V : Type} (d : dict V) (k : string) : option V :=
  match d with
  | [] => None
  | (k', v) :: d' => if String.eqb k k' then Some v else dict_get d' k
  end.

(** [d[k] = v]: overwrite in place, or append. *)
Fixpoint dict_set {V : Type} (d : dict V) (k : string) (v : V) : dict V :=
  match d with
  | [] => [(k, v)]
  | (k', v') :: d' =>
      if String.eqb k k' then (k, v) :: d' else (k', v') :: dict_set d' k v
  end.

(** [k in d]. *)
Definition dict_mem {V : Type} (d : dict V) (k : string) : bool :=
  match dict_get d k with Some _ => true | None => false end.

(** [obj.get(k)] and [obj.get(k, default)] on a dict object. *)
Definition get (fields : dict pyval) (k : string) : pyval :=
  match dict_get fields k with Some v => v | None => VNone end.

Definition get_default (fields : dict pyval) (k : string) (default : pyval) : pyval :=
  match dict_get fields k with Some v => v | None => default end.

(** [isinstance(v, dict)], [isinstance(v, list)], [isinstance(v, str)]. *)
Definition is_dict (v : pyval) : bool :=
  match v with VDict _ => true | _ => false end.
Definition is_list (v : pyval) : bool :=
  match v with VList _ => true | _ => false end.
Definition is_str (v : pyval) : bool :=
  match v with VStr _ => true | _ => false end.
Definition is_none (v : pyval) : bool :=
  match v with VNone => true | _ => false end.

(** Truth value of an object: [bool(v)], and the test of [if v:]. *)
Definition truthy (v : pyval) : bool :=
  match v with
  | VNone => false
  | VBool b => b
  | VInt n => negb (n =? 0)
  | VFloat x => negb (F64.is_zero x)
  | VStr s => negb (Text.is_empty s)
  | VList items => match items with [] => false | _ => true end
  | VDict fields => match fields with [] => false | _ => true end
  end.

(** [a or b]. *)
Definition or_else (a b : pyval) : pyval := if truthy a then a else b.

(** What the interpreter and the C library supply and the repository
    does not define: the textual forms of floats and containers, and the
    elementary functions of [math]. *)
Class Platform : Type := {
  (** [repr(v)] of a float, a list or a dict *)
  py_repr : pyval -> string;
  (** [f"{x:.3f}"] *)
  format_3f : float -> string;
  (** the C library's [sin], [cos], [atan2] and [pow] on doubles *)
  libm_sin : float -> float;
  libm_cos : float -> float;
  libm_atan2 : float -> float -> float;
  libm_pow : float -> float -> float
}.

(** [str(v)]. *)
Definition str `{Platform} (v : pyval) : string :=
  match v with
  | VStr s => s
  | VNone => "None"
  | VBool true => "True"
  | VBool false => "False"
  | VInt n => Text.of_Z n
  | other => py_repr other
  end.

(** ** Numeric literals in text *)

Definition digit_value (c : ascii) : Z := Z.of_nat (nat_of_ascii c) - 48.

(** [digit (["_"] digit)*]: reads the longest such prefix of [s] after a
    first digit was seen, and returns the digits read with the rest. *)
Fixpoint digits_tail (s : string) : list Z * string :=
  match s with
  | String c s' =>
      if Text.is_digit c then
        let (ds, rest) := digits_tail s' in (digit_value c :: ds, rest)
      else if Ascii.eqb c "_" then
        match s' with
        | String d s'' =>
            if Text.is_digit d then
              let (ds, rest) := digits_tail s'' in (digit_value d :: ds, rest)
            else ([], s)
        | EmptyString => ([], s)
        end
      else ([], s)
  | EmptyString => ([], EmptyString)
  end.

(** [digitpart]: empty list when [s] does not start with a digit. *)
Definition digitpart (s : string) : list Z * string :=
  match s with
  | String c s' =>
      if Text.is_digit c then
        let (ds, rest) := digits_tail s' in (digit_value c :: ds, rest)
      else ([], s)
  | EmptyString => ([], EmptyString)
  end.

Definition digits_value (ds : list Z) : Z :=
  fold_left (fun acc d => 10 * acc + d) ds 0.

(** An optional sign: [true] for "-". *)
Definition sign (s : string) : bool * string :=
  match s with
  | String c s' =>
      if Ascii.eqb c "-" then (true, s')
      else if Ascii.eqb c "+" then (false, s')
      else (false, s)
  | EmptyString => (false, s)
  end.

(** [int(text)] in base 10. *)
Definition int_of_str (text : string) : res Z :=
  let (neg, body) := sign (Text.strip_literal text) in
  match digitpart body with
  | (d :: ds, EmptyString) =>
      let n := digits_value (d :: ds) in Ok (if neg then - n else n)
  | _ => Raise (Exc ValueError)
  end.

(** [exponent ::= ("e" | "E") [sign] digitpart], or nothing. *)
Definition exponent (s : string) : option (Z * string) :=
  match s with
  | String c s' =>
      if Ascii.eqb c "e" || Ascii.eqb c "E" then
        let (neg, body) := sign s' in
        match digitpart body with
        | (d :: ds, rest) =>
            let n := digits_value (d :: ds) in Some (if neg then - n else n, rest)
        | ([], _) => None
        end
      else Some (0, s)
  | EmptyString => Some (0, s)
  end.

(** [float(text)]: the whitespace around the literal is dropped; then
    an optional sign and "inf", "infinity" or "nan" in any case, or a decimal
    number [digitpart ["."] [digitpart]] or ["." digitpart] with an
    optional exponent.  Anything else is a [ValueError]. *)
Definition float_of_str (text : string) : res float :=
  let (neg, body) := sign (Text.strip_literal text) in
  let low := Text.lower body in
  if String.eqb low "inf" || String.eqb low "infinity" then Ok (F64.inf neg)
  else if String.eqb low "nan" then Ok F64.nan
  else
    let (ip, after_int) := digitpart body in
    let '(fp, after_frac) :=
      match after_int with
      | String c s' => if Ascii.eqb c "." then digitpart s' else ([], after_int)
      | EmptyString => ([], after_int)
      end in
    match ip, fp with
    | [], [] => Raise (Exc ValueError)
    | _, _ =>
        match exponent after_frac with
        | Some (ex, EmptyString) =>
            Ok (F64.of_decimal neg (digits_value (ip ++ fp))
                  (ex - Z.of_nat (List.length fp)))
        | _ => Raise (Exc ValueError)
        end
    end.

(** [int(v)]. *)
Definition int (v : pyval) : res Z :=
  match v with
  | VInt n => Ok n
  | VBool b => Ok (if b then 1 else 0)
  | VFloat x =>
      if F64.is_nan x then Raise (Exc ValueError)
      else if F64.is_inf x then Raise (Exc OverflowError)
      else Ok (F64.trunc x)
  | VStr s => int_of_str s
  | _ => Raise (Exc TypeError)
  end.

(** [v1 == v2] where it is decided by the numeric value or the text. *)
Definition eq_int (v : pyval) (n : Z) : bool :=
  match v with
  | VInt m => m =? n
  | VBool b => (if b then 1 else 0) =? n
  | VFloat x => F64.eqb x (F64.of_Z n)
  | _ => false
  end.

End Py.

Notation "x <- m ;; k" := (Py.bind m (fun x => k))
  (at level 61, m at next level, right associativity).
Notation "' pat <- m ;; k" :=
  (Py.bind m (fun x => match x with pat => k end))
  (at level 61, pat pattern, m at next level, right associativity).

(* ================================================================== *)
(** * Coordinates: parsing, validation, great-circle distance          *)
(* ================================================================== *)

Module Geo.

Import Py.

(** An [Optional[float]] as an object. *)
Definition of_opt_float (x : option F64.float) : pyval :=
  match x with Some f => VFloat f | None => VNone end.

(** [_parse_float(value)], lines 147-156. *)
Definition _parse_float `{Platform} (value : pyval) : res (option F64.float) :=
  if is_none value then Ok None
  else
    let text := Text.strip (str value) in
    if String.eqb text "" then Ok None
    else
      match float_of_str text with
      | Ok x => Ok (Some x)
      | Raise (Exc ValueError) => Ok None
      | Raise r => Raise r
      end.

(** Order between a float and an integer, decided on the exact values. *)
Definition compare_Z (x : F64.float) (n : Z) : option comparison :=
  match x with
  | S754_nan => None
  | S754_infinity s => Some (if s then Lt else Gt)
  | S754_zero _ => Some (0 ?= n)
  | S754_finite s m e =>
      let v := if s then Zneg m else Zpos m in
      Some (if 0 <=? e then (v * 2 ^ e ?= n) else (v ?= n * 2 ^ (- e)))
  end.

(** [x <= v] and [v <= x] for a float [x] and an object [v]: numbers are
    compared by value, anything else is a [TypeError]. *)
Definition float_le (x : F64.float) (v : pyval) : res bool :=
  match v with
  | VFloat y => Ok (F64.leb x y)
  | VInt n =>
      Ok (match compare_Z x n with Some (Lt | Eq) => true | _ => false end)
  | VBool b =>
      Ok (match compare_Z x (if b then 1 else 0) with
          | Some (Lt | Eq) => true | _ => false end)
  | _ => Raise (Exc TypeError)
  end.

Definition le_float (v : pyval) (x : F64.float) : res bool :=
  match v with
  | VFloat y => Ok (F64.leb y x)
  | VInt n =>
      Ok (match compare_Z x n with Some (Gt | Eq) => true | _ => false end)
  | VBool b =>
      Ok (match compare_Z x (if b then 1 else 0) with
          | Some (Gt | Eq) => true | _ => false end)
  | _ => Raise (Exc TypeError)
  end.

(** [a and b], the right operand evaluated only when the left holds. *)
Definition and_then (a : res bool) (b : res bool) : res bool :=
  x <- a ;; if x then b else Ok false.

(** [_is_valid_lat_lng(lat, lng)], lines 159-162. *)
Definition _is_valid_lat_lng (lat lng : pyval) : res bool :=
  if is_none lat || is_none lng then Ok false
  else
    and_then (float_le (F64.opp F64.c90) lat)
      (and_then (le_float lat F64.c90)
         (and_then (float_le (F64.opp F64.c180) lng)
            (le_float lng F64.c180))).

(** The float an arithmetic operator or a [math] function takes from a
    numeric operand. *)
Definition as_float (v : pyval) : res F64.float :=
  match v with
  | VFloat x => Ok x
  | VInt n =>
      let x := F64.of_Z n in
      if F64.is_inf x then Raise (Exc OverflowError) else Ok x
  | VBool b => Ok (if b then F64.one else F64.zero)
  | _ => Raise (Exc TypeError)
  end.

(** ** The [math] module and float operators, as CPython defines them
    around the C library *)

(** [math.radians(x)]: [x * (pi / 180.0)]. *)
Definition deg_to_rad : F64.float := Eval cbv in F64.div F64.pi F64.c180.
Definition radians (x : F64.float) : F64.float := F64.mul x deg_to_rad.

(** A one-argument [math] function: a NaN from a non-NaN argument and an
    infinity from a finite argument are a [ValueError]. *)
Definition math_1 (f : F64.float -> F64.float) (x : F64.float) : res F64.float :=
  let r := f x in
  if F64.is_nan r && negb (F64.is_nan x) then Raise (Exc ValueError)
  else if F64.is_inf r && F64.is_finite x then Raise (Exc ValueError)
  else Ok r.

Definition math_sin `{Platform} : F64.float -> res F64.float := math_1 libm_sin.
Definition math_cos `{Platform} : F64.float -> res F64.float := math_1 libm_cos.
Definition math_sqrt : F64.float -> res F64.float := math_1 F64.sqrt.

Definition sign_of (x : F64.float) : bool :=
  match x with
  | S754_zero s | S754_infinity s | S754_finite s _ _ => s
  | S754_nan => false
  end.

Definition copysign (magnitude : F64.float) (from : F64.float) : F64.float :=
  if sign_of from then F64.opp (SFabs magnitude) else SFabs magnitude.

(** [math.atan2(y, x)]: the special values are fixed by CPython and the
    C library is asked for the rest. *)
Definition math_atan2 `{Platform} (y x : F64.float) : res F64.float :=
  let quarter_pi := F64.mul (F64.of_decimal false 25 (-2)) F64.pi in
  let three_quarter_pi := F64.mul (F64.of_decimal false 75 (-2)) F64.pi in
  let half_pi := F64.mul (F64.of_decimal false 5 (-1)) F64.pi in
  let r :=
    if F64.is_nan x || F64.is_nan y then F64.nan
    else if F64.is_inf y then
      if F64.is_inf x then
        if sign_of x then copysign three_quarter_pi y else copysign quarter_pi y
      else copysign half_pi y
    else if F64.is_inf x || F64.is_zero y then
      if sign_of x then copysign F64.pi y else copysign F64.zero y
    else libm_atan2 y x in
  if F64.is_nan r && negb (F64.is_nan x) && negb (F64.is_nan y)
  then Raise (Exc ValueError)
  else if F64.is_inf r && F64.is_finite x && F64.is_finite y
  then Raise (Exc OverflowError)
  else Ok r.

(** [x ** 2]: CPython settles NaN, infinities, zeros and 1 itself, takes
    the absolute value of a negative base, and reports an infinite
    result of the C library's [pow] as an [OverflowError]. *)
Definition float_pow_2 `{Platform} (x : F64.float) : res F64.float :=
  match x with
  | S754_nan => Ok F64.nan
  | S754_infinity _ => Ok (F64.inf false)
  | S754_zero _ => Ok F64.zero
  | S754_finite _ m e =>
      let iv := S754_finite false m e in
      if F64.eqb iv F64.one then Ok F64.one
      else
        let ix := libm_pow iv F64.two in
        if F64.is_inf ix then Raise (Exc OverflowError) else Ok ix
  end.

(** [_haversine_meters(lat1, lon1, lat2, lon2)], lines 165-176. *)
Definition _haversine_meters `{Platform}
    (lat1 lon1 lat2 lon2 : F64.float) : res F64.float :=
  let r := F64.earth_radius in
  let phi1 := radians lat1 in
  let phi2 := radians lat2 in
  let dphi := radians (F64.sub lat2 lat1) in
  let dlambda := radians (F64.sub lon2 lon1) in
  s1 <- math_sin (F64.div dphi F64.two) ;;
  p1 <- float_pow_2 s1 ;;
  c1 <- math_cos phi1 ;;
  c2 <- math_cos phi2 ;;
  s2 <- math_sin (F64.div dlambda F64.two) ;;
  p2 <- float_pow_2 s2 ;;
  let a := F64.add p1 (F64.mul (F64.mul c1 c2) p2) in
  q1 <- math_sqrt a ;;
  q2 <- math_sqrt (F64.sub F64.one a) ;;
  t <- math_atan2 q1 q2 ;;
  let c := F64.mul F64.two t in
  Ok (F64.mul r c).

End Geo.

(* ================================================================== *)
(** * Provider client and ambiguity classifier                         *)
(* ================================================================== *)

Module Provider.

Import Py Geo.

(** [GeocodeResult], lines 35-45.  [status], [result_count] and
    [partial_match] are a [str], an [int] and a [bool] in every record
    the program builds; the other fields hold whatever object the JSON
    document or the cache entry carried. *)
Record GeocodeResult : Type := {
  status : string;
  formatted_address : pyval;
  latitude : pyval;
  longitude : pyval;
  result_count : Z;
  partial_match : bool;
  location_type : pyval;
  error_message : pyval;
  raw : pyval
}.

(** What the HTTP exchange and [json.loads] of lines 184-201 come to for
    one request: an exception, or the decoded document. *)
Inductive reply : Type :=
| Fails (e : exc)
| Replies (document : pyval).

Definition head_or_none (items : list pyval) : pyval :=
  match items with v :: _ => v | [] => VNone end.

(** [geocode_address(address, api_key)], lines 179-263, given the reply
    to its request. *)
Definition geocode_address `{Platform} (answer : reply) : res GeocodeResult :=
  match answer with
  | Fails e => Raise (Exc e)
  | Replies (VDict top) =>
      let raw := VDict top in
      let status := str (get_default top "status" (VStr "")) in
      let error_message :=
        if is_str (get top "error_message") then get top "error_message" else VNone in
      let results :=
        match get top "results" with VList items => items | _ => [] end in
      let result_count := Z.of_nat (List.length results) in
      if negb (String.eqb status "OK") then
        Ok {| status := status; formatted_address := VNone;
              latitude := VNone; longitude := VNone;
              result_count := result_count; partial_match := false;
              location_type := VNone; error_message := error_message;
              raw := raw |}
      else if result_count =? 0 then
        Ok {| status := "NO_RESULTS"; formatted_address := VNone;
              latitude := VNone; longitude := VNone;
              result_count := 0; partial_match := false;
              location_type := VNone; error_message := error_message;
              raw := raw |}
      else
        let first :=
          match head_or_none results with VDict f => f | _ => [] end in
        let formatted_address := get first "formatted_address" in
        let partial_match := truthy (get first "partial_match") in
        let geometry := get first "geometry" in
        '(location_type, lat, lng) <-
          match geometry with
          | VDict g =>
              let lt := get g "location_type" in
              let location_type := if is_none lt then VNone else VStr (str lt) in
              match get g "location" with
              | VDict loc =>
                  lat <- _parse_float (get loc "lat") ;;
                  lng <- _parse_float (get loc "lng") ;;
                  Ok (location_type, of_opt_float lat, of_opt_float lng)
              | _ => Ok (location_type, VNone, VNone)
              end
          | _ => Ok (VNone, VNone, VNone)
          end ;;
        Ok {| status := status; formatted_address := formatted_address;
              latitude := lat; longitude := lng;
              result_count := result_count; partial_match := partial_match;
              location_type := location_type; error_message := error_message;
              raw := raw |}
  | Replies _ => Raise (Exc AttributeError)
  end.

(** [_ambiguous_reason(result)], lines 266-279. *)
Definition _ambiguous_reason `{Platform} (result : GeocodeResult)
    : res (option string) :=
  if negb (String.eqb (status result) "OK") then Ok None
  else if negb (result_count result =? 1) then
    Ok (Some ("ambiguous: result_count=" ++ Text.of_Z (result_count result)))
  else if partial_match result then
    Ok (Some "ambiguous: partial_match=true")
  else
    match or_else (location_type result) (VStr "") with
    | VStr s =>
        if negb (String.eqb (Text.upper s) "ROOFTOP") then
          Ok (Some ("ambiguous: location_type="
                    ++ str (or_else (location_type result) (VStr "UNKNOWN"))))
        else Ok None
    | _ => Raise (Exc AttributeError)
    end.

End Provider.

(* ================================================================== *)
(** * Result cache                                                     *)
(* ================================================================== *)

Module Cache.

Import Py Provider.

Definition CACHE_VERSION : Z := 1.

(** [{"version": CACHE_VERSION, "entries": {}}] *)
Definition fresh : pyval :=
  VDict [("version", VInt CACHE_VERSION); ("entries", VDict [])].

(** [_normalize_address(address)], lines 48-49. *)
Definition _normalize_address (address : string) : string :=
  Text.join " " (Text.split (Text.strip address)).

(** The cache file as [_load_cache] meets it: no file at the path, or a
    file on which [open] or [json.load] raises, or a file whose content
    decodes to a JSON document. *)
Inductive cache_file_state : Type :=
| NoSuchFile
| LoadRaises (e : exc)
| Loads (data : pyval).

(** [_load_cache(cache_file)], lines 52-70. *)
Definition _load_cache (files : string -> cache_file_state) (cache_file : string)
    : res pyval :=
  if Text.is_empty cache_file then Ok fresh
  else
    match files cache_file with
    | NoSuchFile => Ok fresh
    | on_disk =>
        try_except
          (data <- match on_disk with
                   | Loads d => Ok d
                   | LoadRaises e => Raise (Exc e)
                   | NoSuchFile => Raise (Exc OSError)
                   end ;;
           match data with
           | VDict fields =>
               if negb (eq_int (get fields "version") CACHE_VERSION) then Ok fresh
               else if negb (is_dict (get fields "entries")) then Ok fresh
               else Ok data
           | _ => Ok fresh
           end)
          (fun _ => Ok fresh)
    end.

(** [_geocode_result_to_cache_entry(result)], lines 84-94. *)
Definition _geocode_result_to_cache_entry (result : GeocodeResult) : pyval :=
  VDict [ ("status", VStr (status result));
          ("formatted_address", formatted_address result);
          ("latitude", latitude result);
          ("longitude", longitude result);
          ("result_count", VInt (result_count result));
          ("partial_match", VBool (partial_match result));
          ("location_type", location_type result);
          ("error_message", error_message result) ].

(** [_cache_entry_to_geocode_result(entry)], lines 97-113. *)
Definition _cache_entry_to_geocode_result `{Platform} (entry : pyval)
    : res (option GeocodeResult) :=
  match entry with
  | VDict e =>
      try_except
        (count <- int (get_default e "result_count" (VInt 0)) ;;
         Ok (Some {| status := str (get_default e "status" (VStr ""));
                     formatted_address := get e "formatted_address";
                     latitude := get e "latitude";
                     longitude := get e "longitude";
                     result_count := count;
                     partial_match :=
                       truthy (get_default e "partial_match" (VBool false));
                     location_type := get e "location_type";
                     error_message := get e "error_message";
                     raw := VDict [] |}))
        (fun _ => Ok None)
  | _ => Ok None
  end.

End Cache.

(* ================================================================== *)
(** * The [.env] loader                                                *)
(* ================================================================== *)

Module Env.

Import Py.

(** [os.environ]: the variables of the process, by name. *)
Definition environ : Type := dict string.

Definition double_quote : ascii := ascii_of_nat 34.
Definition single_quote : ascii := ascii_of_nat 39.

(** [s.strip(ch)] for a one-character [ch]. *)
Fixpoint lstrip_char (ch : ascii) (s : string) : string :=
  match s with
  | EmptyString => EmptyString
  | String c s' => if Ascii.eqb c ch then lstrip_char ch s' else s
  end.

Fixpoint rstrip_char (ch : ascii) (s : string) : string :=
  match s with
  | EmptyString => EmptyString
  | String c s' =>
      let r := rstrip_char ch s' in
      if Ascii.eqb c ch && Text.is_empty r then EmptyString else String c r
  end.

Definition strip_char (ch : ascii) (s : string) : string :=
  rstrip_char ch (lstrip_char ch s).

(** [s.split("=", 1)] for a text with an "=" in it: what stands before
    the first "=" and what follows it; [None] when ["=" not in s]. *)
Fixpoint split_at_equals (s : string) : option (string * string) :=
  match s with
  | EmptyString => None
  | String c s' =>
      if Ascii.eqb c "=" then Some (EmptyString, s')
      else
        match split_at_equals s' with
        | Some (key, value) => Some (String c key, value)
        | None => None
        end
  end.

(** [s.startswith("#")] *)
Definition is_comment (s : string) : bool :=
  match s with
  | String c _ => Ascii.eqb c "#"
  | EmptyString => false
  end.

(** What one line of the file assigns, lines 132-139: the name and the
    value, or [None] where the loop goes on to the next line. *)
Definition assignment (line : string) : option (string * string) :=
  let stripped := Text.strip line in
  if Text.is_empty stripped || is_comment stripped then None
  else
    match split_at_equals stripped with
    | None => None
    | Some (key, value) =>
        Some (Text.strip key,
              strip_char single_quote (strip_char double_quote (Text.strip value)))
    end.

Fixpoint has_nul (s : string) : bool :=
  match s with
  | EmptyString => false
  | String c s' => (nat_of_ascii c =? 0)%nat || has_nul s'
  end.

(** [os.environ[key] = value] for a non-empty name without "=": a NUL
    in the name or in the value is a [ValueError]. *)
Definition setenv (env : environ) (key value : string) : res environ :=
  if has_nul key || has_nul value then Raise (Exc ValueError)
  else Ok (dict_set env key value).

(** The loop of lines 131-141: its outcome and the environment after
    it. *)
Fixpoint load_lines (lines : list string) (env : environ) : res unit * environ :=
  match lines with
  | [] => (Ok tt, env)
  | line :: rest =>
      match assignment line with
      | Some (key, value) =>
          if negb (Text.is_empty key) && negb (dict_mem env key) then
            match setenv env key value with
            | Ok env' => load_lines rest env'
            | Raise r => (Raise r, env)
            end
          else load_lines rest env
      | None => load_lines rest env
      end
  end.

(** The file as the loader meets it: no file at the path, a file that
    [open] refuses, or a file that yields lines and then, possibly, an
    exception that ends the reading early. *)
Inductive env_file_state : Type :=
| NoEnvFile
| OpenRaises (e : exc)
| Reads (lines : list string) (failure : option exc).

(** [except OSError: return] *)
Definition except_os_error (outcome : res unit) : res unit :=
  match outcome with
  | Raise (Exc OSError) => Ok tt
  | other => other
  end.

(** [_load_env_file_if_present(env_file)], lines 116-144: the outcome
    of the call and [os.environ] after it. *)
Definition _load_env_file_if_present (files : string -> env_file_state)
    (env_file : string) (env : environ) : res unit * environ :=
  if Text.is_empty env_file then (Ok tt, env)
  else
    match files env_file with
    | NoEnvFile => (Ok tt, env)
    | OpenRaises e => (except_os_error (Raise (Exc e)), env)
    | Reads lines failure =>
        let (outcome, env') := load_lines lines env in
        let outcome :=
          match outcome, failure with
          | Ok _, Some e => Raise (Exc e)
          | _, _ => outcome
          end in
        (except_os_error outcome, env')
    end.

End Env.

(* ================================================================== *)
(** * The run: column resolution, cached lookup, row loop, summary     *)
(* ================================================================== *)

(** The summary record of lines 561-578 (numeric keys). *)
Module Summary.
Record t : Type := {
  total_rows : Z;
  checked_rows : Z;
  matched : Z;
  mismatched : Z;
  invalid_coord_mismatches : Z;
  distance_mismatches : Z;
  skipped_missing_address : Z;
  skipped_ambiguous : Z;
  skipped_geocode_failure : Z;
  cache_hits : Z;
  cache_misses : Z;
  accounted_rows : Z
}.
End Summary.

Module Run.

Import Py Geo Provider Cache.

(** One row of [csv.DictReader]: a cell per header column, [None] for a
    column the line is too short to fill. *)
Definition row : Type := dict (option string).

(** [row.get(col)] *)
Definition row_get (r : row) (col : string) : option string :=
  match dict_get r col with Some c => c | None => None end.

Definition cell (c : option string) : pyval :=
  match c with Some s => VStr s | None => VNone end.

(** [(cell or "")] *)
Definition text_or_empty (c : option string) : string :=
  match c with Some s => s | None => "" end.

(** [if s:] for an [Optional[str]] *)
Definition nonempty (c : option string) : bool :=
  match c with Some s => negb (Text.is_empty s) | None => false end.

(** [_required_column(fieldnames, requested, label)], lines 282-294. *)
Definition _required_column (fieldnames : list string) (requested label : string)
    : res string :=
  if Text.mem requested fieldnames then Ok requested
  else
    let lowered : dict string :=
      fold_left (fun d name => dict_set d (Text.lower name) name) fieldnames [] in
    match dict_get lowered (Text.lower requested) with
    | Some name => Ok name
    | None =>
        let available := Text.join ", " fieldnames in
        Raise (SystemExit ("Missing required column for " ++ label ++ ": '"
                           ++ requested ++ "'. Available columns: " ++ available))
    end.

(** The namespace [parse_args] returns, lines 297-379. *)
Record Args : Type := {
  input : string;
  mismatches_output : string;
  summary_output : option string;
  id_column : string;
  address_column : string;
  lat_column : string;
  lng_column : string;
  tolerance_meters : F64.float;
  env_file : string;
  cache_file : option string;
  sleep_ms : Z;
  max_rows : option Z;
  dry_run : bool
}.

(** What the run reads from outside the program. *)
Record World : Type := {
  (** [os.environ.get("GOOGLE_MAPS_API_KEY")] at line 392, after the
      optional [.env] file was loaded *)
  api_key_env : option string;
  (** the state of the file at each cache path *)
  cache_files : string -> cache_file_state;
  (** [reader.fieldnames] and the rows of the input CSV *)
  fieldnames : option (list string);
  rows : list row;
  (** the reply to the n-th request sent (n counted from 0), for an
      address and an API key *)
  provider : Z -> string -> string -> reply
}.

(** The effects of the row loop on the outside. *)
Inductive event : Type :=
| Request (address : string)       (* the HTTP request of [geocode_address] *)
| Sleep (milliseconds : Z).        (* [time.sleep(args.sleep_ms / 1000.0)] *)

(** The integer variables of [main] that the loop and
    [geocode_with_cache] increment, lines 402-414. *)
Inductive counter : Type :=
| total_rows | checked_rows | matched | mismatched
| invalid_coord_mismatches | skipped_missing_address
| skipped_ambiguous | skipped_geocode_failure
| cache_hits | cache_misses.

Definition counter_eqb (a b : counter) : bool :=
  match a, b with
  | total_rows, total_rows | checked_rows, checked_rows
  | matched, matched | mismatched, mismatched
  | invalid_coord_mismatches, invalid_coord_mismatches
  | skipped_missing_address, skipped_missing_address
  | skipped_ambiguous, skipped_ambiguous
  | skipped_geocode_failure, skipped_geocode_failure
  | cache_hits, cache_hits | cache_misses, cache_misses => true
  | _, _ => false
  end.

(** The variables of [main] that change while rows are processed, and
    the effects so far, oldest first. *)
Record State : Type := {
  count : counter -> Z;
  cache_entries : dict pyval;
  mismatches : list row;
  trace : list event
}.

Definition initial (entries : dict pyval) : State :=
  {| count := fun _ => 0; cache_entries := entries;
     mismatches := []; trace := [] |}.

(** [c += 1] *)
Definition bump (c : counter) (st : State) : State :=
  {| count := fun c' => if counter_eqb c c' then count st c' + 1 else count st c';
     cache_entries := cache_entries st;
     mismatches := mismatches st;
     trace := trace st |}.

(** [cache_entries[key] = entry] *)
Definition store (key : string) (entry : pyval) (st : State) : State :=
  {| count := count st;
     cache_entries := dict_set (cache_entries st) key entry;
     mismatches := mismatches st;
     trace := trace st |}.

(** [mismatches.append(output_row)] *)
Definition append_mismatch (output_row : row) (st : State) : State :=
  {| count := count st;
     cache_entries := cache_entries st;
     mismatches := mismatches st ++ [output_row];
     trace := trace st |}.

Definition emit (e : event) (st : State) : State :=
  {| count := count st;
     cache_entries := cache_entries st;
     mismatches := mismatches st;
     trace := trace st ++ [e] |}.

(** [geocode_with_cache(address)], lines 416-428: the outcome of the
    call and the variables after it.  The request it sends is the
    [cache_misses]-th of the run. *)
Definition geocode_with_cache `{Platform} (args : Args) (w : World)
    (api_key : string) (address : string) (st : State)
    : res GeocodeResult * State :=
  let key := _normalize_address address in
  let cached : res (option GeocodeResult) :=
    if nonempty (cache_file args) && dict_mem (cache_entries st) key
    then _cache_entry_to_geocode_result (get (cache_entries st) key)
    else Ok None in
  match cached with
  | Raise r => (Raise r, st)
  | Ok (Some result) => (Ok result, bump cache_hits st)
  | Ok None =>
      let st1 := emit (Request address) (bump cache_misses st) in
      match geocode_address (provider w (count st cache_misses) address api_key) with
      | Raise r => (Raise r, st1)
      | Ok result =>
          (Ok result,
           if nonempty (cache_file args)
           then store key (_geocode_result_to_cache_entry result) st1
           else st1)
      end
  end.

(** The column names resolved at lines 444-447. *)
Record Columns : Type := {
  id_col : string;
  address_col : string;
  lat_col : string;
  lng_col : string
}.

(** ["" if v is None else str(v)] *)
Definition blank_or_str `{Platform} (v : pyval) : string :=
  if is_none v then "" else str v.

(** [a or b] on conditions, the right one evaluated only when the left
    fails. *)
Definition or_else_cond (a : bool) (b : res bool) : res bool :=
  if a then Ok true else b.

(** The enrichment lookup of an invalid-coordinate row, lines 481-492:
    the body of the [try], then the [except Exception: pass]. *)
Definition enrich `{Platform} (attempt : res GeocodeResult) : res (pyval * pyval) :=
  try_except
    (result <- attempt ;;
     usable <- and_then (Ok (String.eqb (status result) "OK"))
                 (_is_valid_lat_lng (latitude result) (longitude result)) ;;
     if usable then
       reason <- _ambiguous_reason result ;;
       match reason with
       | None => Ok (latitude result, longitude result)
       | Some _ => Ok (VNone, VNone)
       end
     else Ok (VNone, VNone))
    (fun _ => Ok (VNone, VNone)).

(** The body of the row loop after [total_rows += 1], lines 462-545.
    The diagnostic lines written to standard error are left out. *)
Definition process_row `{Platform} (args : Args) (w : World) (api_key : string)
    (cols : Columns) (r : row) (st : State) : res State :=
  let address := Text.strip (text_or_empty (row_get r (address_col cols))) in
  lat <- _parse_float (cell (row_get r (lat_col cols))) ;;
  lng <- _parse_float (cell (row_get r (lng_col cols))) ;;
  if Text.is_empty address then Ok (bump skipped_missing_address st)
  else
    valid <- _is_valid_lat_lng (of_opt_float lat) (of_opt_float lng) ;;
    if negb valid then
      let st1 := bump mismatched (bump invalid_coord_mismatches st) in
      let output_row : row := r in
      let (attempt, st2) := geocode_with_cache args w api_key address st1 in
      '(google_lat, google_lng) <- enrich attempt ;;
      let output_row := dict_set output_row "google_latitude"
                          (Some (blank_or_str google_lat)) in
      let output_row := dict_set output_row "google_longitude"
                          (Some (blank_or_str google_lng)) in
      let output_row := dict_set output_row "distance_meters" (Some "") in
      Ok (append_mismatch output_row st2)
    else
      let (attempt, st1) := geocode_with_cache args w api_key address st in
      match attempt with
      | Raise (Exc _) => Ok (bump skipped_geocode_failure st1)
      | Raise other => Raise other
      | Ok result =>
          failed <- or_else_cond (negb (String.eqb (status result) "OK"))
                      (ok <- _is_valid_lat_lng (latitude result) (longitude result) ;;
                       Ok (negb ok)) ;;
          if failed then Ok (bump skipped_geocode_failure st1)
          else
            reason <- _ambiguous_reason result ;;
            if nonempty reason then Ok (bump skipped_ambiguous st1)
            else
              lat1 <- as_float (of_opt_float lat) ;;
              lon1 <- as_float (of_opt_float lng) ;;
              lat2 <- as_float (latitude result) ;;
              lon2 <- as_float (longitude result) ;;
              distance_m <- _haversine_meters lat1 lon1 lat2 lon2 ;;
              let st2 := bump checked_rows st1 in
              let st3 :=
                if F64.leb distance_m (tolerance_meters args) then bump matched st2
                else
                  let output_row : row := r in
                  let output_row := dict_set output_row "google_latitude"
                                      (Some (blank_or_str (latitude result))) in
                  let output_row := dict_set output_row "google_longitude"
                                      (Some (blank_or_str (longitude result))) in
                  let output_row := dict_set output_row "distance_meters"
                                      (Some (format_3f distance_m)) in
                  append_mismatch output_row (bump mismatched st2) in
              Ok (if 0 <? sleep_ms args then emit (Sleep (sleep_ms args)) st3 else st3)
      end.

(** [for row in reader: ...], lines 457-545. *)
Fixpoint process_rows `{Platform} (args : Args) (w : World) (api_key : string)
    (cols : Columns) (rs : list row) (st : State) : res State :=
  match rs with
  | [] => Ok st
  | r :: rest =>
      let stop :=
        match max_rows args with
        | Some limit => limit <=? count st total_rows
        | None => false
        end in
      if stop then Ok st
      else
        st' <- process_row args w api_key cols r (bump total_rows st) ;;
        process_rows args w api_key cols rest st'
  end.

(** What a completed run leaves behind. *)
Record Outputs : Type := {
  summary : Summary.t;
  (** the header and the rows written to [args.mismatches_output] *)
  output_fieldnames : list string;
  written_mismatches : list row;
  (** the object handed to [_save_cache], if any *)
  saved_cache : option pyval;
  effects : list event
}.

(** Lines 554-578. *)
Definition summarize (st : State) : Summary.t :=
  let distance_mismatches := count st mismatched - count st invalid_coord_mismatches in
  let distance_mismatches :=
    if distance_mismatches <? 0 then 0 else distance_mismatches in
  let accounted_rows :=
    count st checked_rows + count st invalid_coord_mismatches
    + count st skipped_missing_address + count st skipped_ambiguous
    + count st skipped_geocode_failure in
  {| Summary.total_rows := count st total_rows;
     Summary.checked_rows := count st checked_rows;
     Summary.matched := count st matched;
     Summary.mismatched := count st mismatched;
     Summary.invalid_coord_mismatches := count st invalid_coord_mismatches;
     Summary.distance_mismatches := distance_mismatches;
     Summary.skipped_missing_address := count st skipped_missing_address;
     Summary.skipped_ambiguous := count st skipped_ambiguous;
     Summary.skipped_geocode_failure := count st skipped_geocode_failure;
     Summary.cache_hits := count st cache_hits;
     Summary.cache_misses := count st cache_misses;
     Summary.accounted_rows := accounted_rows |}.

(** [main(argv)] after [parse_args], lines 385-591: the value returned
    with what the run wrote, or the exception that ends it. *)
Definition main `{Platform} (args : Args) (w : World) : res (Z * option Outputs) :=
  if F64.ltb (tolerance_meters args) F64.zero then Ok (2, None)
  else
    let api_key := api_key_env w in
    if negb (dry_run args) && negb (nonempty api_key) then Ok (2, None)
    else
      cache <- (if negb (dry_run args) && nonempty (cache_file args)
                then _load_cache (cache_files w) (text_or_empty (cache_file args))
                else Ok fresh) ;;
      let cache_fields := match cache with VDict c => c | _ => [] end in
      let entries := match get cache_fields "entries" with VDict e => e | _ => [] end in
      match fieldnames w with
      | None => Ok (2, None)
      | Some input_fieldnames =>
          let output_fieldnames :=
            fold_left (fun names extra_col =>
                         if Text.mem extra_col names then names
                         else (names ++ [extra_col])%list)
              ["google_latitude"; "google_longitude"; "distance_meters"]
              input_fieldnames in
          id_col <- _required_column input_fieldnames (id_column args) "id" ;;
          address_col <- _required_column input_fieldnames (address_column args)
                           "address" ;;
          lat_col <- _required_column input_fieldnames (lat_column args) "latitude" ;;
          lng_col <- _required_column input_fieldnames (lng_column args) "longitude" ;;
          if dry_run args then Ok (0, None)
          else
            let cols := {| id_col := id_col; address_col := address_col;
                           lat_col := lat_col; lng_col := lng_col |} in
            st <- process_rows args w (text_or_empty api_key) cols (rows w)
                    (initial entries) ;;
            Ok (0, Some {| summary := summarize st;
                           output_fieldnames := output_fieldnames;
                           written_mismatches := mismatches st;
                           saved_cache :=
                             if nonempty (cache_file args)
                             then Some (VDict (dict_set cache_fields "entries"
                                                 (VDict (cache_entries st))))
                             else None;
                           effects := trace st |})
      end.


End Run.

(* ================================================================== *)
(** * A stand-in platform and the notions the statements use           *)
(* ================================================================== *)

(** A decimal text that [float] reads back as the same float: the exact
    value [m * 2^e] written as an integer and a power of ten. *)
Definition exact_decimal (x : F64.float) : string :=
  match x with
  | S754_nan => "nan"
  | S754_infinity s => if s then "-inf" else "inf"
  | S754_zero s => if s then "-0.0" else "0.0"
  | S754_finite s m e =>
      (if s then "-" else "")
      ++ (if 0 <=? e then Text.of_Z (Zpos m * 2 ^ e)
          else Text.of_Z (Zpos m * 5 ^ (- e)) ++ "e" ++ Text.of_Z e)
  end.

(** A platform to run the definitions on: the small-angle
    approximations [sin x = x], [cos x = 1], [atan2 y x = y / x], the
    square by one multiplication, floats written by [exact_decimal], and
    a placeholder for the other textual forms. *)
#[export] Instance small_angle_platform : Py.Platform := {|
  Py.py_repr := fun v => match v with
                         | Py.VFloat x => exact_decimal x
                         | _ => "<repr>"
                         end;
  Py.format_3f := exact_decimal;
  Py.libm_sin := fun x => x;
  Py.libm_cos := fun _ => F64.one;
  Py.libm_atan2 := fun y x => F64.div y x;
  Py.libm_pow := fun x _ => F64.mul x x
|}.

(** Sample inputs: the rows and replies of the specification's
    scenarios. *)
Module Demo.

Import Py Provider Cache Run.

Definition header : list string := ["id"; "address"; "latitude"; "longitude"].

Definition cols : Columns :=
  {| id_col := "id"; address_col := "address";
     lat_col := "latitude"; lng_col := "longitude" |}.

Definition a_row (id address lat lng : string) : row :=
  [("id", Some id); ("address", Some address);
   ("latitude", Some lat); ("longitude", Some lng)].

Definition args (tolerance : Z) (cache : option string) (sleep : Z) : Args :=
  {| input := "properties.csv"; mismatches_output := "mismatches.csv";
     summary_output := None;
     id_column := "id"; address_column := "Address";
     lat_column := "latitude"; lng_column := "longitude";
     tolerance_meters := F64.of_Z tolerance; env_file := ".env";
     cache_file := cache; sleep_ms := sleep; max_rows := None;
     dry_run := false |}.

(** One result of the provider's document. *)
Definition a_match (location_type : string) (lat lng : pyval) : pyval :=
  VDict [("formatted_address", VStr "1 Main St, Springfield");
         ("geometry",
          VDict [("location", VDict [("lat", lat); ("lng", lng)]);
                 ("location_type", VStr location_type)])].

Definition ok_reply (matches : list pyval) : reply :=
  Replies (VDict [("results", VList matches); ("status", VStr "OK")]).

(** 40.0001 and -74.0001 *)
Definition lat_40_0001 : pyval := VFloat (F64.of_decimal false 400001 (-4)).
Definition lng_74_0001 : pyval := VFloat (F64.of_decimal true 740001 (-4)).

Definition rooftop : reply := ok_reply [a_match "ROOFTOP" lat_40_0001 lng_74_0001].
Definition interpolated : reply :=
  ok_reply [a_match "RANGE_INTERPOLATED" lat_40_0001 lng_74_0001].
Definition nothing_found : reply := ok_reply [].

Definition world (key : option string) (files : string -> cache_file_state)
    (names : option (list string)) (rs : list row)
    (answers : Z -> string -> string -> reply) : World :=
  {| api_key_env := key; cache_files := files; fieldnames := names;
     rows := rs; provider := answers |}.

(** A provider that knows three addresses. *)
Definition answers : Z -> string -> string -> reply :=
  fun _ address _ =>
    if String.eqb address "1 Main St" then rooftop
    else if String.eqb address "2 Side St" then interpolated
    else if String.eqb address "3 Back St" then nothing_found
    else Fails OSError.

Definition eight_rows : list row :=
  [a_row "1" "1 Main St" "40.0" "-74.0";
   a_row "2" "2 Side St" "40.0" "-74.0";
   a_row "3" "3 Back St" "40.0" "-74.0";
   a_row "4" "4 Lost St" "40.0" "-74.0";
   a_row "5" "" "40.0" "-74.0";
   a_row "6" "1 Main St" "" "-74.0";
   a_row "7" "1 Main St" "nan" "-74.0";
   a_row "8" "1 Main St" "41.0" "-74.0"].


(** What [geocode_address] makes of the rooftop reply. *)
Definition rooftop_result : GeocodeResult :=
  {| status := "OK"; formatted_address := VStr "1 Main St, Springfield";
     latitude := lat_40_0001; longitude := lng_74_0001;
     result_count := 1; partial_match := false;
     location_type := VStr "ROOFTOP"; error_message := VNone;
     raw := match rooftop with Replies document => document | Fails _ => VNone end |}.

Definition tab : string := String (ascii_of_nat 9) EmptyString.

(** "1 Main St" with two leading spaces, a doubled space, a TAB for the
    second space, and a trailing space. *)
Definition respaced_address : string :=
  Eval cbv in ("  1  Main" ++ tab ++ "St ")%string.

(** A cache that already holds the rooftop result for "1 Main St". *)
Definition warm_cache `{Platform} : dict pyval :=
  match geocode_address rooftop with
  | Ok result => [("1 Main St", _geocode_result_to_cache_entry result)]
  | Raise _ => []
  end.

Definition no_files : string -> cache_file_state := fun _ => NoSuchFile.
Definition unreachable : Z -> string -> string -> reply := fun _ _ _ => Fails OSError.

End Demo.

(** A result the provider client builds for a "ZERO_RESULTS" reply. *)
Definition zero_results : Provider.GeocodeResult :=
  {| Provider.status := "ZERO_RESULTS"; Provider.formatted_address := Py.VNone;
     Provider.latitude := Py.VNone; Provider.longitude := Py.VNone;
     Provider.result_count := 0; Provider.partial_match := false;
     Provider.location_type := Py.VNone; Provider.error_message := Py.VNone;
     Provider.raw := Py.VDict [("status", Py.VStr "ZERO_RESULTS");
                               ("results", Py.VList [])] |}.

Module Notions.

Import Py Provider.

(** Equality of two texts up to the case of ASCII letters. *)
Fixpoint caseless_eqb (a b : string) : bool :=
  match a, b with
  | EmptyString, EmptyString => true
  | String c a', String d b' =>
      Ascii.eqb (Text.lower_char c) (Text.lower_char d) && caseless_eqb a' b'
  | _, _ => false
  end.


(** A text without lower-case letters. *)
Fixpoint no_lower (s : string) : bool :=
  match s with
  | EmptyString => true
  | String c s' => negb (Text.is_lower c) && no_lower s'
  end.

(** All 256 characters. *)
Definition all_chars : list ascii := map ascii_of_nat (seq 0 256).

(** An [Optional[str]] as an object. *)
Definition of_opt_str (s : option string) : pyval :=
  match s with Some t => VStr t | None => VNone end.








(** An outcome that is [SystemExit] on its way up. *)
Definition exits {A : Type} (m : res A) : bool :=
  match m with Raise (SystemExit _) => true | _ => false end.

(** The stored coordinates pass the range test of the specification:
    both present, latitude in [-90, 90], longitude in [-180, 180]. *)
Definition in_range (lat lng : option F64.float) : bool :=
  match lat, lng with
  | Some a, Some b =>
      F64.leb (F64.opp F64.c90) a && F64.leb a F64.c90
      && F64.leb (F64.opp F64.c180) b && F64.leb b F64.c180
  | _, _ => false
  end.







(** The row outcomes of the specification. *)
Inductive RowOutcome : Type :=
| Matched
| MismatchedInvalidCoordinates
| MismatchedDistanceExceedsTolerance
| SkippedMissingAddress
| SkippedAmbiguousResult
| SkippedGeocodeFailure.

(** The counters an outcome adds one to. *)
Definition tally (o : RowOutcome) (c : Run.counter) : Z :=
  match o, c with
  | Matched, Run.checked_rows | Matched, Run.matched
  | MismatchedInvalidCoordinates, Run.invalid_coord_mismatches
  | MismatchedInvalidCoordinates, Run.mismatched
  | MismatchedDistanceExceedsTolerance, Run.checked_rows
  | MismatchedDistanceExceedsTolerance, Run.mismatched
  | SkippedMissingAddress, Run.skipped_missing_address
  | SkippedAmbiguousResult, Run.skipped_ambiguous
  | SkippedGeocodeFailure, Run.skipped_geocode_failure => 1
  | _, _ => 0
  end.

(** The counters that record outcomes (the others count rows read and
    cache traffic). *)
Definition records_outcome (c : Run.counter) : bool :=
  match c with
  | Run.total_rows | Run.cache_hits | Run.cache_misses => false
  | _ => true
  end.

(** The loop body took a row from state [st] to state [st'] with
    outcome [o]: the counters of that outcome went up by one, no other
    outcome counter moved, and a mismatch record was appended exactly
    for the two mismatch outcomes. *)
Definition classified (o : RowOutcome) (st st' : Run.State) : Prop :=
  (forall c, records_outcome c = true ->
             Run.count st' c = Run.count st c + tally o c)
  /\ match o with
     | MismatchedInvalidCoordinates | MismatchedDistanceExceedsTolerance =>
         exists output_row,
           Run.mismatches st' = (Run.mismatches st ++ [output_row])%list
     | _ => Run.mismatches st' = Run.mismatches st
     end.

(** The counters after any number of rows: every row read is accounted
    for once, and the mismatches are the invalid rows and the checked
    rows that did not match. *)
Definition reconciled (st : Run.State) : Prop :=
  Run.count st Run.total_rows
  = Run.count st Run.checked_rows + Run.count st Run.invalid_coord_mismatches
    + Run.count st Run.skipped_missing_address + Run.count st Run.skipped_ambiguous
    + Run.count st Run.skipped_geocode_failure
  /\ Run.count st Run.mismatched
     = Run.count st Run.invalid_coord_mismatches
       + (Run.count st Run.checked_rows - Run.count st Run.matched)
  /\ Run.count st Run.matched <= Run.count st Run.checked_rows.

End Notions.

(** Notions for the properties of the whole run. *)
Module RunNotions.

Import Py Provider.

(** An [Optional[float]]: [None] or a float. *)
Definition optional_float (v : pyval) : bool :=
  match v with
  | VNone | VFloat _ => true
  | _ => false
  end.

(** A cache document that [_load_cache] takes as it is: a dict with
    version 1 and a dict of entries. *)
Definition well_formed_cache (v : pyval) : bool :=
  match v with
  | VDict fields =>
      eq_int (get fields "version") Cache.CACHE_VERSION
      && is_dict (get fields "entries")
  | _ => false
  end.

(** The number of requests and of delays in a trace. *)
Definition is_request (e : Run.event) : bool :=
  match e with Run.Request _ => true | Run.Sleep _ => false end.

Definition is_sleep (e : Run.event) : bool :=
  match e with Run.Sleep _ => true | Run.Request _ => false end.

Definition requests (t : list Run.event) : Z :=
  Z.of_nat (List.length (filter is_request t)).

Definition sleeps (t : list Run.event) : Z :=
  Z.of_nat (List.length (filter is_sleep t)).

(** The columns the program adds to the mismatch file. *)
Definition extra_columns : list string :=
  ["google_latitude"; "google_longitude"; "distance_meters"].

(** The keys of a dict, in order. *)
Definition keys {V : Type} (d : dict V) : list string := map fst d.

(** A mismatch record made from the row [r]: the row's cells, with the
    three added cells set to some text. *)
Definition record_of (r record : Run.row) : Prop :=
  exists google_lat google_lng distance,
    record = dict_set
               (dict_set
                  (dict_set r "google_latitude" (Some google_lat))
                  "google_longitude" (Some google_lng))
               "distance_meters" (Some distance).


(** The same world with other rows. *)
Definition with_rows (w : Run.World) (rs : list Run.row) : Run.World :=
  {| Run.api_key_env := Run.api_key_env w;
     Run.cache_files := Run.cache_files w;
     Run.fieldnames := Run.fieldnames w;
     Run.rows := rs;
     Run.provider := Run.provider w |}.

(** The same world with other cache files. *)
Definition with_cache_files (w : Run.World)
    (files : string -> Cache.cache_file_state) : Run.World :=
  {| Run.api_key_env := Run.api_key_env w;
     Run.cache_files := files;
     Run.fieldnames := Run.fieldnames w;
     Run.rows := Run.rows w;
     Run.provider := Run.provider w |}.

End RunNotions.

(* ================================================================== *)
(** * Facts about text                                                 *)
(* ================================================================== *)

Section TextFacts.

Import Text Notions.

Lemma all_chars_complete (c : ascii) : In c all_chars.
Proof.
  unfold all_chars. rewrite <- (ascii_nat_embedding c).
  apply in_map, in_seq. pose proof (nat_ascii_bounded c). lia.
Qed.

(** A property of characters that holds on the 256 of them holds. *)
Lemma by_cases_on_chars (p : ascii -> bool) :
  forallb p all_chars = true -> forall c, p c = true.
Proof.
  intros H c. rewrite forallb_forall in H. apply H, all_chars_complete.
Qed.

Lemma upper_char_eqb (c d : ascii) :
  is_lower d = false ->
  Ascii.eqb (upper_char c) d = Ascii.eqb (lower_char c) (lower_char d).
Proof.
  revert c d.
  assert (H : forall c, forallb (fun d =>
              implb (negb (is_lower d))
                (Bool.eqb (Ascii.eqb (upper_char c) d)
                          (Ascii.eqb (lower_char c) (lower_char d))))
              all_chars = true).
  { apply (by_cases_on_chars (fun c => forallb _ all_chars)).
    vm_compute. reflexivity. }
  intros c d Hd. specialize (H c). rewrite forallb_forall in H.
  specialize (H d (all_chars_complete d)). rewrite Hd in H. simpl in H.
  apply eqb_prop in H. exact H.
Qed.

(** Comparing [s.upper()] with a text without lower-case letters is
    comparing [s] with it up to case. *)
Lemma upper_eqb_caseless (t : string) :
  no_lower t = true ->
  forall s, String.eqb (upper s) t = caseless_eqb s t.
Proof.
  induction t as [| d t IH]; intros Ht s.
  - destruct s; reflexivity.
  - simpl in Ht. apply andb_true_iff in Ht. destruct Ht as [Hd Ht].
    apply negb_true_iff in Hd.
    destruct s as [| c s]; [reflexivity |].
    simpl. rewrite (upper_char_eqb c d Hd).
    destruct (Ascii.eqb (lower_char c) (lower_char d)); simpl.
    + apply IH, Ht.
    + reflexivity.
Qed.


(** ** Splitting on whitespace *)


Lemma append_assoc (s t u : string) :
  ((s ++ t) ++ u)%string = (s ++ (t ++ u))%string.
Proof. induction s as [| c s IH]; simpl; congruence. Qed.










(** ** Words and their rejoining *)










End TextFacts.

(* ================================================================== *)
(** * The ambiguity classifier                                         *)
(* ================================================================== *)

Section Ambiguity.

Import Py Provider Notions.
Context `{Platform}.

Lemma or_else_opt_str (lt : option string) (default : string) :
  or_else (of_opt_str lt) (VStr default)
  = VStr (if Run.nonempty lt then Run.text_or_empty lt else default).
Proof.
  destruct lt as [[| c s] |]; reflexivity.
Qed.

(** The classifier on a result whose status is "OK" and whose location
    type is a text or null: the four cases, in the order of the tests. *)
Lemma ambiguous_reason_ok (r : GeocodeResult) (lt : option string) :
  location_type r = of_opt_str lt ->
  status r = "OK" ->
  _ambiguous_reason r =
    Ok (if negb (result_count r =? 1) then
          Some ("ambiguous: result_count=" ++ Text.of_Z (result_count r))
        else if partial_match r then Some "ambiguous: partial_match=true"
        else if caseless_eqb (Run.text_or_empty lt) "ROOFTOP" then None
        else Some ("ambiguous: location_type="
                   ++ (if Run.nonempty lt then Run.text_or_empty lt else "UNKNOWN"))).
Proof.
  intros Hlt Hst. unfold _ambiguous_reason. rewrite Hst, Hlt. simpl.
  destruct (result_count r =? 1); simpl; [| reflexivity].
  destruct (partial_match r); [reflexivity |].
  rewrite !or_else_opt_str.
  assert (E : (if Run.nonempty lt then Run.text_or_empty lt else "")
              = Run.text_or_empty lt)
    by (destruct lt as [[| c s] |]; reflexivity).
  rewrite E, (upper_eqb_caseless "ROOFTOP" eq_refl).
  destruct (caseless_eqb (Run.text_or_empty lt) "ROOFTOP"); reflexivity.
Qed.

Lemma ambiguous_reason_not_ok (r : GeocodeResult) :
  status r <> "OK" -> _ambiguous_reason r = Ok None.
Proof.
  intros Hst. unfold _ambiguous_reason.
  destruct (String.eqb_spec (status r) "OK") as [E | E]; [contradiction | reflexivity].
Qed.

End Ambiguity.

(** C2, as stated, fails: on a result whose status is not "OK" the
    classifier returns null although none of the four conditions holds. *)
Lemma ambiguous_reason_null_without_ok :
  ~ (Provider._ambiguous_reason zero_results = Py.Ok None ->
     Provider.status zero_results = "OK"
     /\ Provider.result_count zero_results = 1
     /\ Provider.partial_match zero_results = false
     /\ Notions.caseless_eqb "" "ROOFTOP" = true).
Proof.
  intros Hclaim. destruct (Hclaim eq_refl) as [Hst _]. discriminate Hst.
Qed.

(** C2, amended: for a result whose location type is a text or null,
    the classifier returns null when the status is not "OK"; when the
    status is "OK" it returns null exactly when result_count is 1,
    partial_match is false and the location type equals "ROOFTOP" up to
    case, and otherwise the reason of the first failing test, in the
    order result_count, partial_match, location_type. *)
Theorem ambiguous_reason_spec `{Py.Platform}
    (r : Provider.GeocodeResult) (lt : option string) :
  Provider.location_type r = Notions.of_opt_str lt ->
  (Provider.status r <> "OK" -> Provider._ambiguous_reason r = Py.Ok None)
  /\ (Provider.status r = "OK" ->
      (Provider._ambiguous_reason r = Py.Ok None <->
         Provider.result_count r = 1
         /\ Provider.partial_match r = false
         /\ Notions.caseless_eqb (Run.text_or_empty lt) "ROOFTOP" = true)
      /\ (Provider.result_count r <> 1 ->
          Provider._ambiguous_reason r =
            Py.Ok (Some ("ambiguous: result_count="
                         ++ Text.of_Z (Provider.result_count r))))
      /\ (Provider.result_count r = 1 -> Provider.partial_match r = true ->
          Provider._ambiguous_reason r =
            Py.Ok (Some "ambiguous: partial_match=true"))
      /\ (Provider.result_count r = 1 -> Provider.partial_match r = false ->
          Notions.caseless_eqb (Run.text_or_empty lt) "ROOFTOP" = false ->
          Provider._ambiguous_reason r =
            Py.Ok (Some ("ambiguous: location_type="
                         ++ (if Run.nonempty lt then Run.text_or_empty lt
                             else "UNKNOWN"))))).
Proof.
  intros Hlt. split; [apply ambiguous_reason_not_ok |].
  intros Hst. rewrite (ambiguous_reason_ok r lt Hlt Hst).
  destruct (Z.eqb_spec (Provider.result_count r) 1) as [Hc | Hc]; simpl;
    destruct (Provider.partial_match r) eqn:Hp;
    destruct (Notions.caseless_eqb (Run.text_or_empty lt) "ROOFTOP") eqn:Hl;
    repeat split; intros; try reflexivity; try congruence;
    repeat match goal with
           | Hx : _ /\ _ |- _ => destruct Hx
           end; try congruence.
Qed.

(** The theorem at the specification's example of an interpolated
    location. *)
Lemma ambiguous_reason_spec_witness :
  let r := {| Provider.status := "OK"; Provider.formatted_address := Py.VNone;
              Provider.latitude := Py.VNone; Provider.longitude := Py.VNone;
              Provider.result_count := 1; Provider.partial_match := false;
              Provider.location_type := Py.VStr "RANGE_INTERPOLATED";
              Provider.error_message := Py.VNone; Provider.raw := Py.VDict [] |} in
  Provider.location_type r = Notions.of_opt_str (Some "RANGE_INTERPOLATED")
  /\ Provider._ambiguous_reason r
     = Py.Ok (Some "ambiguous: location_type=RANGE_INTERPOLATED").
Proof.
  intros r. split; [reflexivity |].
  destruct (ambiguous_reason_spec r (Some "RANGE_INTERPOLATED") eq_refl)
    as [_ Hok].
  destruct (Hok eq_refl) as (_ & _ & _ & Hloc).
  exact (Hloc eq_refl eq_refl eq_refl).
Defined.

(* ================================================================== *)
(** * Exceptions: what can and cannot leave each function              *)
(* ================================================================== *)

Section Exceptions.

Import Py Geo Provider Cache Notions.
Context `{Platform}.

Lemma exits_bind {A B : Type} (m : res A) (k : A -> res B) :
  exits m = false -> (forall a, exits (k a) = false) -> exits (bind m k) = false.
Proof.
  intros Hm Hk. destruct m as [a | [e | msg]]; simpl; auto.
Qed.

Lemma try_except_ok {A : Type} (body : res A) (handler : exc -> res A) :
  exits body = false ->
  (forall e, exists a, handler e = Ok a) ->
  exists a, try_except body handler = Ok a.
Proof.
  intros Hb Hh. destruct body as [a | [e | msg]]; simpl.
  - now exists a.
  - apply Hh.
  - discriminate Hb.
Qed.

Lemma float_of_str_outcome (text : string) :
  (exists x, float_of_str text = Ok x)
  \/ float_of_str text = Raise (Exc ValueError).
Proof.
  unfold float_of_str.
  repeat match goal with
         | |- context [match ?x with _ => _ end] => destruct x
         | |- context [if ?b then _ else _] => destruct b
         end; eauto.
Qed.

Lemma parse_float_total (value : pyval) :
  exists parsed, _parse_float value = Ok parsed.
Proof.
  unfold _parse_float.
  destruct (is_none value); [eauto |].
  destruct (String.eqb _ ""); [eauto |].
  destruct (float_of_str_outcome (Text.strip (str value))) as [[x E] | E];
    rewrite E; eauto.
Qed.





(** On the coordinates parsed from a row the validity test is the
    range test, and raises nothing. *)
Lemma is_valid_stored (lat lng : option F64.float) :
  _is_valid_lat_lng (of_opt_float lat) (of_opt_float lng) = Ok (in_range lat lng).
Proof.
  destruct lat as [a |], lng as [b |]; try reflexivity.
  unfold _is_valid_lat_lng, in_range, and_then. simpl.
  repeat match goal with
         | |- context [F64.leb ?x ?y] => destruct (F64.leb x y)
         end; reflexivity.
Qed.


Lemma geocode_address_exits (answer : reply) :
  exits (geocode_address answer) = false.
Proof.
  unfold geocode_address.
  destruct answer as [e | document]; [reflexivity |].
  destruct document; try reflexivity.
  destruct (negb _); [reflexivity |].
  destruct (_ =? 0); [reflexivity |].
  apply exits_bind.
  - destruct (get _ "geometry"); try reflexivity.
    destruct (get _ "location"); try reflexivity.
    destruct (parse_float_total (get fields1 "lat")) as [a Ea].
    destruct (parse_float_total (get fields1 "lng")) as [b Eb].
    rewrite Ea, Eb. reflexivity.
  - intros [[lt lat] lng]. reflexivity.
Qed.

Lemma cache_entry_total (entry : pyval) :
  exists decoded, _cache_entry_to_geocode_result entry = Ok decoded.
Proof.
  unfold _cache_entry_to_geocode_result.
  destruct entry; eauto.
  apply try_except_ok; [| eauto].
  apply exits_bind; [| reflexivity].
  destruct (get_default fields "result_count" (VInt 0)); simpl; try reflexivity.
  - destruct (F64.is_nan x); [reflexivity |]. destruct (F64.is_inf x); reflexivity.
  - unfold int_of_str.
    repeat match goal with
           | |- context [match ?x with _ => _ end] => destruct x
           end; reflexivity.
Qed.

End Exceptions.

(* ================================================================== *)
(** * The cached lookup                                                *)
(* ================================================================== *)

Section CachedLookup.

Import Py Geo Provider Cache Run Notions.
Context `{Platform}.

Variables (args : Args) (w : World) (api_key : string).

Lemma bump_same c st : count (bump c st) c = count st c + 1.
Proof. destruct c; reflexivity. Qed.

Lemma bump_other c c' st : c <> c' -> count (bump c st) c' = count st c'.
Proof. destruct c, c'; intros Hne; try reflexivity; congruence. Qed.

(** A lookup ends in one of three ways: a cache hit, a request that
    fails, or a request that is answered (and stored when a cache file
    is configured). *)
Lemma geocode_with_cache_cases (address : string) (st : State) :
  let key := _normalize_address address in
  let live := emit (Request address) (bump cache_misses st) in
  let answer := provider w (count st cache_misses) address api_key in
  (exists result,
      nonempty (cache_file args) = true
      /\ dict_mem (cache_entries st) key = true
      /\ _cache_entry_to_geocode_result (get (cache_entries st) key) = Ok (Some result)
      /\ geocode_with_cache args w api_key address st
         = (Ok result, bump cache_hits st))
  \/ (exists e,
      geocode_address answer = Raise (Exc e)
      /\ geocode_with_cache args w api_key address st = (Raise (Exc e), live))
  \/ (exists result,
      geocode_address answer = Ok result
      /\ geocode_with_cache args w api_key address st
         = (Ok result,
            if nonempty (cache_file args)
            then store key (_geocode_result_to_cache_entry result) live
            else live)).
Proof.
  intros key live answer. unfold geocode_with_cache. fold key.
  assert (Hlive :
    (exists e, geocode_address answer = Raise (Exc e))
    \/ (exists result, geocode_address answer = Ok result)).
  { pose proof (geocode_address_exits answer) as Hx.
    destruct (geocode_address answer) as [result | [e | msg]]; eauto.
    discriminate Hx. }
  destruct (nonempty (cache_file args) && dict_mem (cache_entries st) key) eqn:Hc.
  - apply andb_true_iff in Hc. destruct Hc as [Hf Hm].
    destruct (cache_entry_total (get (cache_entries st) key)) as [[result |] E];
      rewrite E.
    + left. exists result. auto.
    + destruct Hlive as [[e E'] | [result E']]; fold answer; rewrite E'.
      * right. left. exists e. auto.
      * right. right. exists result. auto.
  - destruct Hlive as [[e E'] | [result E']]; fold answer; rewrite E'.
    + right. left. exists e. auto.
    + right. right. exists result. auto.
Qed.


(** A lookup touches only the two cache counters, the cache entries and
    the trace. *)
Lemma geocode_with_cache_frame (address : string) (st : State) :
  let st' := snd (geocode_with_cache args w api_key address st) in
  (forall c, c <> cache_hits -> c <> cache_misses -> count st' c = count st c)
  /\ mismatches st' = mismatches st.
Proof.
  destruct (geocode_with_cache_cases address st)
    as [(r & _ & _ & _ & E) | [(e & _ & E) | (r & _ & E)]];
    rewrite E; cbn [snd]; (split; [intros c Hh Hm | ]).
  - apply bump_other. congruence.
  - reflexivity.
  - apply (bump_other cache_misses c st). congruence.
  - reflexivity.
  - destruct (nonempty (cache_file args)); unfold store, emit; cbn [count];
      apply (bump_other cache_misses c st); congruence.
  - destruct (nonempty (cache_file args)); reflexivity.
Qed.

End CachedLookup.

(* ================================================================== *)
(** * The row evaluator                                                *)
(* ================================================================== *)

Section RowEvaluator.

Import Py Geo Provider Cache Run Notions.
Context `{Platform}.

Variables (args : Args) (w : World) (api_key : string) (cols : Columns).

Lemma dict_get_set_same {V : Type} (d : dict V) (k : string) (v : V) :
  dict_get (dict_set d k v) k = Some v.
Proof.
  induction d as [| [k' v'] d IH]; simpl.
  - now rewrite String.eqb_refl.
  - destruct (String.eqb k k') eqn:E; simpl.
    + now rewrite String.eqb_refl.
    + now rewrite E.
Qed.

Lemma dict_get_set_other {V : Type} (d : dict V) (k k' : string) (v : V) :
  k <> k' -> dict_get (dict_set d k v) k' = dict_get d k'.
Proof.
  intros Hne. induction d as [| [k0 v0] d IH]; simpl.
  - destruct (String.eqb_spec k' k); [congruence | reflexivity].
  - destruct (String.eqb_spec k k0) as [-> | Hk]; simpl.
    + destruct (String.eqb_spec k' k0); [congruence | reflexivity].
    + destruct (String.eqb k' k0); [reflexivity | exact IH].
Qed.




End RowEvaluator.

(* ================================================================== *)
(** * C1: invalid stored coordinates                                   *)
(* ================================================================== *)





(* ================================================================== *)
(** * C3: "OK" with no results                                         *)
(* ================================================================== *)




(* ================================================================== *)
(** * Every row has one outcome                                        *)
(* ================================================================== *)

Section EveryRow.

Import Py Geo Provider Cache Run Notions.
Context `{Platform}.

Variables (args : Args) (w : World) (api_key : string) (cols : Columns).

Ltac settle Hcount :=
  cbn [count bump append_mismatch emit counter_eqb mismatches tally];
  rewrite ?Hcount by congruence;
  cbn [count bump append_mismatch emit counter_eqb mismatches];
  first [reflexivity | lia | eexists; reflexivity].

Ltac outcome o Hcount Hmis :=
  exists o; split;
  [ split;
    [ let c := fresh "c" in
      let Hc := fresh "Hc" in
      intros c Hc; destruct c; try discriminate Hc; settle Hcount
    | cbn [mismatches bump append_mismatch emit]; rewrite ?Hmis;
      first [reflexivity | eexists; reflexivity] ]
  | settle Hcount ].

(** Every row the loop body finishes gets exactly one outcome, and the
    body does not count rows. *)
Lemma process_row_classified (r : row) (st st' : State) :
  process_row args w api_key cols r st = Ok st' ->
  exists o, classified o st st' /\ count st' total_rows = count st total_rows.
Proof.
  intros Hrun. unfold process_row in Hrun.
  destruct (parse_float_total (cell (row_get r (lat_col cols)))) as [lat Elat].
  destruct (parse_float_total (cell (row_get r (lng_col cols)))) as [lng Elng].
  rewrite Elat, Elng in Hrun. cbn [bind] in Hrun.
  destruct (Text.is_empty _) eqn:Haddr.
  { injection Hrun as <-.
    assert (Hcount : forall c : counter, count st c = count st c) by reflexivity.
    outcome SkippedMissingAddress Hcount Hcount. }
  rewrite is_valid_stored in Hrun. cbn [bind] in Hrun.
  destruct (in_range lat lng) eqn:Hrange; cbn [negb] in Hrun.
  - match type of Hrun with
    | context [geocode_with_cache ?a ?b ?k ?ad ?s0] =>
        destruct (geocode_with_cache_frame a b k ad s0) as [Hcount Hmis];
        destruct (geocode_with_cache a b k ad s0) as [attempt st1]
    end.
    cbn [snd] in Hcount, Hmis.
    destruct attempt as [result | [e | msg]]; [| | discriminate].
    + destruct (or_else_cond _ _) as [[|] |]; cbn [bind] in Hrun; [| | discriminate].
      { injection Hrun as <-. outcome SkippedGeocodeFailure Hcount Hmis. }
      destruct (_ambiguous_reason result) as [reason |]; [| discriminate].
      cbn [bind] in Hrun. destruct (nonempty reason).
      { injection Hrun as <-. outcome SkippedAmbiguousResult Hcount Hmis. }
      repeat match type of Hrun with
             | context [bind ?m _] =>
                 destruct m; [cbn [bind] in Hrun | discriminate]
             end.
      injection Hrun as <-.
      destruct (F64.leb _ _); destruct (0 <? sleep_ms args).
      * outcome Matched Hcount Hmis.
      * outcome Matched Hcount Hmis.
      * outcome MismatchedDistanceExceedsTolerance Hcount Hmis.
      * outcome MismatchedDistanceExceedsTolerance Hcount Hmis.
    + injection Hrun as <-. outcome SkippedGeocodeFailure Hcount Hmis.
  - match type of Hrun with
    | context [geocode_with_cache ?a ?b ?k ?ad ?s0] =>
        destruct (geocode_with_cache_frame a b k ad s0) as [Hcount Hmis];
        destruct (geocode_with_cache a b k ad s0) as [attempt st1]
    end.
    cbn [snd] in Hcount, Hmis.
    destruct (enrich attempt) as [[google_lat google_lng] |]; [| discriminate].
    cbn [bind] in Hrun. injection Hrun as <-.
    outcome MismatchedInvalidCoordinates Hcount Hmis.
Qed.

Lemma process_rows_reconciled (rs : list row) (st st' : State) :
  reconciled st ->
  process_rows args w api_key cols rs st = Ok st' ->
  reconciled st'.
Proof.
  revert st. induction rs as [| r rs IH]; intros st Hinv Hrun; simpl in Hrun.
  - injection Hrun as <-. exact Hinv.
  - destruct (match max_rows args with Some _ => _ | None => _ end).
    { injection Hrun as <-. exact Hinv. }
    destruct (process_row args w api_key cols r (bump total_rows st))
      as [st1 |] eqn:Erow; [| discriminate].
    cbn [bind] in Hrun. apply (IH st1); [| exact Hrun].
    destruct (process_row_classified r _ st1 Erow) as (o & [Hcls _] & Htotal).
    destruct Hinv as (Hacc & Hmis & Hle).
    pose proof (Hcls checked_rows eq_refl) as H1.
    pose proof (Hcls matched eq_refl) as H2.
    pose proof (Hcls mismatched eq_refl) as H3.
    pose proof (Hcls invalid_coord_mismatches eq_refl) as H4.
    pose proof (Hcls skipped_missing_address eq_refl) as H5.
    pose proof (Hcls skipped_ambiguous eq_refl) as H6.
    pose proof (Hcls skipped_geocode_failure eq_refl) as H7.
    cbn [count bump counter_eqb] in H1, H2, H3, H4, H5, H6, H7, Htotal.
    unfold reconciled. destruct o; cbn [tally] in *; lia.
Qed.

End EveryRow.

(* ================================================================== *)
(** * C4: the summary                                                  *)
(* ================================================================== *)

Section Reconciliation.

Import Py Geo Provider Cache Run Notions.
Context `{Platform}.

Lemma required_column_outcome (names : list string) (requested label : string) :
  (exists name, _required_column names requested label = Ok name)
  \/ (exists message, _required_column names requested label
                      = Raise (SystemExit message)).
Proof.
  unfold _required_column.
  destruct (Text.mem requested names); [eauto |].
  destruct (dict_get _ (Text.lower requested)); eauto.
Qed.

(** A run that writes its outputs went through the row loop, and its
    summary is the one of the loop's final state. *)
Lemma main_outputs (args : Args) (w : World) (code : Z) (out : Outputs) :
  main args w = Ok (code, Some out) ->
  code = 0
  /\ exists (api_key : string) (cols : Columns) (entries : dict pyval) (st : State),
       process_rows args w api_key cols (rows w) (initial entries) = Ok st
       /\ summary out = summarize st
       /\ written_mismatches out = mismatches st
       /\ effects out = trace st.
Proof.
  unfold main. intros Hmain.
  destruct (F64.ltb _ _); [discriminate |].
  destruct (negb (dry_run args) && negb (nonempty (api_key_env w))); [discriminate |].
  destruct (if negb (dry_run args) && nonempty (cache_file args) then _ else _)
    as [cache | ?]; [| discriminate].
  cbn [bind] in Hmain.
  destruct (fieldnames w) as [names |]; [| discriminate].
  destruct (_required_column names (id_column args) "id"); [| discriminate].
  destruct (_required_column names (address_column args) "address"); [| discriminate].
  destruct (_required_column names (lat_column args) "latitude"); [| discriminate].
  destruct (_required_column names (lng_column args) "longitude"); [| discriminate].
  cbn [bind] in Hmain.
  destruct (dry_run args); [discriminate |].
  match type of Hmain with
  | context [process_rows ?a ?b ?k ?c ?rs ?s0] =>
      destruct (process_rows a b k c rs s0) as [st |] eqn:Eloop; [| discriminate]
  end.
  cbn [bind] in Hmain. injection Hmain as <- <-.
  split; [reflexivity |]. do 4 eexists. split; [exact Eloop |].
  repeat split.
Qed.

(** X1: in the summary of a completed run every row read is accounted
    for, [accounted_rows = total_rows], and the difference behind
    [distance_mismatches] is never negative: it is
    [mismatched - invalid_coord_mismatches], which is
    [checked_rows - matched]. *)
Lemma summary_accounts_every_row (args : Args) (w : World) (code : Z) (out : Outputs) :
  main args w = Ok (code, Some out) ->
  Summary.accounted_rows (summary out) = Summary.total_rows (summary out)
  /\ Summary.distance_mismatches (summary out)
     = Summary.mismatched (summary out)
       - Summary.invalid_coord_mismatches (summary out)
  /\ Summary.distance_mismatches (summary out)
     = Summary.checked_rows (summary out) - Summary.matched (summary out).
Proof.
  intros Hmain.
  destruct (main_outputs args w code out Hmain)
    as (_ & api_key & cols & entries & st & Hloop & Hsum & _).
  assert (Hrec : reconciled st).
  { apply (process_rows_reconciled args w api_key cols (rows w) (initial entries));
      [| exact Hloop].
    unfold reconciled. cbn. lia. }
  destruct Hrec as (Hacc & Hmis & Hle).
  rewrite Hsum. unfold summarize. cbn.
  destruct (Z.ltb_spec (count st mismatched - count st invalid_coord_mismatches) 0);
    lia.
Qed.

End Reconciliation.

Lemma summary_accounts_every_row_witness :
  exists out,
    Run.main (Demo.args 50 None 0)
      (Demo.world (Some "k") Demo.no_files (Some Demo.header)
         Demo.eight_rows Demo.answers) = Py.Ok (0, Some out)
    /\ Summary.total_rows (Run.summary out) = 8
    /\ Summary.accounted_rows (Run.summary out) = Summary.total_rows (Run.summary out)
    /\ Summary.distance_mismatches (Run.summary out)
       = Summary.mismatched (Run.summary out)
         - Summary.invalid_coord_mismatches (Run.summary out)
    /\ Summary.distance_mismatches (Run.summary out)
       = Summary.checked_rows (Run.summary out) - Summary.matched (Run.summary out).
Proof.
  eexists. split; [vm_compute; reflexivity |]. split; [reflexivity |].
  apply (summary_accounts_every_row (Demo.args 50 None 0)
           (Demo.world (Some "k") Demo.no_files (Some Demo.header)
              Demo.eight_rows Demo.answers) 0).
  vm_compute. reflexivity.
Defined.

(** C4: in the summary of every run that reports one, accounted_rows is
    the sum of checked_rows, invalid_coord_mismatches and the three skip
    counters, and distance_mismatches is
    max(0, mismatched - invalid_coord_mismatches). *)
Theorem summary_reconciles `{Py.Platform}
    (args : Run.Args) (w : Run.World) (code : Z) (out : Run.Outputs) :
  Run.main args w = Py.Ok (code, Some out) ->
  let s := Run.summary out in
  Summary.accounted_rows s
  = Summary.checked_rows s + Summary.invalid_coord_mismatches s
    + Summary.skipped_missing_address s + Summary.skipped_ambiguous s
    + Summary.skipped_geocode_failure s
  /\ Summary.distance_mismatches s
     = Z.max 0 (Summary.mismatched s - Summary.invalid_coord_mismatches s).
Proof.
  intros Hmain s.
  destruct (main_outputs args w code out Hmain)
    as (_ & api_key & cols & entries & st & _ & Hsum & _).
  subst s. rewrite Hsum. unfold Run.summarize. cbn.
  split; [reflexivity |].
  destruct (Z.ltb_spec (Run.count st Run.mismatched
                        - Run.count st Run.invalid_coord_mismatches) 0); lia.
Qed.

(** The theorem at a run over eight rows that meet every outcome. *)
Lemma summary_reconciles_witness :
  let w := Demo.world (Some "k") Demo.no_files (Some Demo.header)
             Demo.eight_rows Demo.answers in
  exists out,
    Run.main (Demo.args 50 None 0) w = Py.Ok (0, Some out)
    /\ Summary.accounted_rows (Run.summary out)
       = Summary.checked_rows (Run.summary out)
         + Summary.invalid_coord_mismatches (Run.summary out)
         + Summary.skipped_missing_address (Run.summary out)
         + Summary.skipped_ambiguous (Run.summary out)
         + Summary.skipped_geocode_failure (Run.summary out)
    /\ Summary.distance_mismatches (Run.summary out)
       = Z.max 0 (Summary.mismatched (Run.summary out)
                  - Summary.invalid_coord_mismatches (Run.summary out)).
Proof.
  intros w.
  assert (E : exists out, Run.main (Demo.args 50 None 0) w = Py.Ok (0, Some out)).
  { vm_compute. eexists. reflexivity. }
  destruct E as [out E]. exists out. split; [exact E |].
  exact (summary_reconciles (Demo.args 50 None 0) w 0 out E).
Defined.

(* ================================================================== *)
(** * C5: exit status                                                  *)
(* ================================================================== *)

Section ExitStatus.

Import Py Geo Provider Cache Run Notions.
Context `{Platform}.

Lemma mem_In (x : string) (names : list string) :
  Text.mem x names = true -> In x names.
Proof.
  induction names as [| y names IH]; simpl; [discriminate |].
  destruct (String.eqb_spec x y) as [-> | _]; simpl; auto.
Qed.



Lemma load_cache_ok (files : string -> cache_file_state) (path : string) :
  exists cache, _load_cache files path = Ok cache.
Proof.
  unfold _load_cache.
  destruct (Text.is_empty path); [eauto |].
  destruct (files path) as [| e | data]; [eauto | cbn; eauto |].
  cbn [bind try_except]. destruct data; cbn [bind try_except]; eauto.
  repeat match goal with
         | |- context [if ?b then _ else _] => destruct b
         end; cbn [try_except]; eauto.
Qed.


End ExitStatus.




(* ================================================================== *)
(** * C6: the delay between requests                                   *)
(* ================================================================== *)

Section Delay.

Import Py Geo Provider Cache Run Notions.
Context `{Platform}.

Variables (args : Args) (w : World) (api_key : string) (cols : Columns).

(** A lookup adds to the trace the request it sends, if it sends one. *)
Lemma geocode_with_cache_trace (address : string) (st : State) :
  let st' := snd (geocode_with_cache args w api_key address st) in
  (trace st' = trace st /\ count st' cache_misses = count st cache_misses)
  \/ (trace st' = (trace st ++ [Request address])%list
      /\ count st' cache_misses = count st cache_misses + 1).
Proof.
  destruct (geocode_with_cache_cases args w api_key address st)
    as [(r & _ & _ & _ & E) | [(e & _ & E) | (r & _ & E)]];
    rewrite E; cbn [snd].
  - left. split; reflexivity.
  - right. split; [reflexivity | apply bump_same].
  - right. destruct (nonempty (cache_file args)); split;
      first [reflexivity | apply (bump_same cache_misses st)].
Qed.

(** The delay is taken after the rows that reach the distance check, and
    after no other row, whether the result came from the cache or from
    a request. *)
Lemma delay_exactly_after_checked_rows (r : row) (st st' : State) :
  process_row args w api_key cols r st = Ok st' ->
  exists sent,
    (sent = [] \/ exists address, sent = [Request address])
    /\ trace st'
       = (trace st ++ sent
          ++ (if (0 <? sleep_ms args)
                 && (count st' checked_rows =? count st checked_rows + 1)
              then [Sleep (sleep_ms args)] else []))%list.
Proof.
  intros Hrun. unfold process_row in Hrun.
  destruct (parse_float_total (cell (row_get r (lat_col cols)))) as [lat Elat].
  destruct (parse_float_total (cell (row_get r (lng_col cols)))) as [lng Elng].
  rewrite Elat, Elng in Hrun. cbn [bind] in Hrun.
  assert (Hsame : forall n : Z, (n =? n + 1) = false)
    by (intros n; apply Z.eqb_neq; lia).
  destruct (Text.is_empty _) eqn:Haddr.
  { injection Hrun as <-. exists []. split; [now left |].
    cbn [count bump counter_eqb trace]. rewrite Hsame, andb_false_r.
    now rewrite !app_nil_r. }
  rewrite is_valid_stored in Hrun. cbn [bind] in Hrun.
  match type of Hrun with
  | context [geocode_with_cache ?a ?b ?k ?ad _] => set (address := ad) in *
  end.
  assert (Hsent : forall st0,
            exists sent,
              (sent = [] \/ exists address, sent = [Request address])
              /\ trace (snd (geocode_with_cache args w api_key address st0))
                 = (trace st0 ++ sent)%list).
  { intros st0.
    destruct (geocode_with_cache_trace address st0) as [[Ht _] | [Ht _]].
    - exists []. split; [now left | now rewrite app_nil_r].
    - exists [Request address]. split; [right; now exists address | exact Ht]. }
  destruct (in_range lat lng) eqn:Hrange; cbn [negb] in Hrun.
  - destruct (Hsent st) as (sent & Hshape & Htrace).
    destruct (geocode_with_cache_frame args w api_key address st) as [Hcount _].
    destruct (geocode_with_cache args w api_key address st) as [attempt st1].
    cbn [snd] in Htrace, Hcount.
    specialize (Hcount checked_rows ltac:(discriminate) ltac:(discriminate)).
    exists sent. split; [exact Hshape |].
    destruct attempt as [result | [e | msg]]; [| | discriminate].
    + destruct (or_else_cond _ _) as [[|] |]; cbn [bind] in Hrun; [| | discriminate].
      { injection Hrun as <-. cbn [count bump counter_eqb trace].
        rewrite Hcount, Hsame, andb_false_r, Htrace. now rewrite app_nil_r. }
      destruct (_ambiguous_reason result) as [reason |]; [| discriminate].
      cbn [bind] in Hrun. destruct (nonempty reason).
      { injection Hrun as <-. cbn [count bump counter_eqb trace].
        rewrite Hcount, Hsame, andb_false_r, Htrace. now rewrite app_nil_r. }
      repeat match type of Hrun with
             | context [bind ?m _] =>
                 destruct m; [cbn [bind] in Hrun | discriminate]
             end.
      injection Hrun as <-.
      destruct (F64.leb _ _); destruct (0 <? sleep_ms args);
        cbn [count bump append_mismatch emit counter_eqb trace andb];
        rewrite ?Hcount, ?Z.eqb_refl, Htrace, ?app_nil_r, <- ?app_assoc;
        reflexivity.
    + injection Hrun as <-. cbn [count bump counter_eqb trace].
      rewrite Hcount, Hsame, andb_false_r, Htrace. now rewrite app_nil_r.
  - destruct (Hsent (bump mismatched (bump invalid_coord_mismatches st)))
      as (sent & Hshape & Htrace).
    destruct (geocode_with_cache_frame args w api_key address
                (bump mismatched (bump invalid_coord_mismatches st)))
      as [Hcount _].
    destruct (geocode_with_cache args w api_key address _) as [attempt st1].
    cbn [snd] in Htrace, Hcount.
    specialize (Hcount checked_rows ltac:(discriminate) ltac:(discriminate)).
    cbn [count bump counter_eqb trace] in Hcount, Htrace.
    exists sent. split; [exact Hshape |].
    destruct (enrich attempt) as [[google_lat google_lng] |]; [| discriminate].
    cbn [bind] in Hrun. injection Hrun as <-.
    cbn [count append_mismatch trace].
    rewrite Hcount, Hsame, andb_false_r, Htrace. now rewrite app_nil_r.
Qed.

End Delay.

(** C6 on the code: with [--sleep-ms 100], a row answered from the cache
    (one hit, no miss, no request) is followed by the delay, while a
    row whose request was sent and answered with an interpolated match,
    and a row with an invalid latitude whose enrichment request was sent
    and answered with a rooftop match, are not. *)
Theorem sleep_follows_checked_rows_only :
  let args := Demo.args 50 (Some "cache.json") 100 in
  let w := Demo.world (Some "k") Demo.no_files (Some Demo.header)
             Demo.eight_rows Demo.answers in
  (exists st,
      Run.process_row args w "k" Demo.cols
        (Demo.a_row "1" "1 Main St" "40.0" "-74.0") (Run.initial Demo.warm_cache)
      = Py.Ok st
      /\ Run.count st Run.cache_hits = 1
      /\ Run.count st Run.cache_misses = 0
      /\ Run.count st Run.checked_rows = 1
      /\ Run.trace st = [Run.Sleep 100])
  /\ (exists st,
      Run.process_row args w "k" Demo.cols
        (Demo.a_row "2" "2 Side St" "40.0" "-74.0") (Run.initial [])
      = Py.Ok st
      /\ Run.count st Run.cache_misses = 1
      /\ Run.count st Run.skipped_ambiguous = 1
      /\ Run.trace st = [Run.Request "2 Side St"])
  /\ (exists st,
      Run.process_row args w "k" Demo.cols
        (Demo.a_row "6" "1 Main St" "" "-74.0") (Run.initial [])
      = Py.Ok st
      /\ Run.count st Run.cache_misses = 1
      /\ Run.count st Run.invalid_coord_mismatches = 1
      /\ Run.trace st = [Run.Request "1 Main St"]).
Proof.
  intros args w. repeat split; eexists; (split; [vm_compute; reflexivity |]);
    repeat split.
Qed.

(* ================================================================== *)
(** * C8: loading the cache file                                       *)
(* ================================================================== *)

(** C8: [_load_cache] never raises, and it returns the fresh empty cache
    with the current version when the file is absent, when opening or
    decoding it raises, when the document is not a dict, when its
    version is missing or a number other than the current one, and when
    its entries are not a dict. *)
Theorem load_cache_never_fails
    (files : string -> Cache.cache_file_state) (path : string) :
  Cache.fresh = Py.VDict [("version", Py.VInt Cache.CACHE_VERSION);
                          ("entries", Py.VDict [])]
  /\ (exists cache, Cache._load_cache files path = Py.Ok cache)
  /\ (files path = Cache.NoSuchFile ->
      Cache._load_cache files path = Py.Ok Cache.fresh)
  /\ (forall e, files path = Cache.LoadRaises e ->
      Cache._load_cache files path = Py.Ok Cache.fresh)
  /\ (forall data, files path = Cache.Loads data -> Py.is_dict data = false ->
      Cache._load_cache files path = Py.Ok Cache.fresh)
  /\ (forall fields, files path = Cache.Loads (Py.VDict fields) ->
      Py.dict_get fields "version" = None ->
      Cache._load_cache files path = Py.Ok Cache.fresh)
  /\ (forall fields n, files path = Cache.Loads (Py.VDict fields) ->
      Py.dict_get fields "version" = Some (Py.VInt n) ->
      n <> Cache.CACHE_VERSION ->
      Cache._load_cache files path = Py.Ok Cache.fresh)
  /\ (forall fields, files path = Cache.Loads (Py.VDict fields) ->
      Py.is_dict (Py.get fields "entries") = false ->
      Cache._load_cache files path = Py.Ok Cache.fresh).
Proof.
  split; [reflexivity |].
  split; [apply load_cache_ok |].
  unfold Cache._load_cache.
  destruct (Text.is_empty path); [repeat split; reflexivity |].
  repeat split.
  - intros ->. reflexivity.
  - intros e ->. reflexivity.
  - intros data -> Hd. destruct data; try reflexivity. discriminate Hd.
  - intros fields -> Hv. cbn [Py.bind]. unfold Py.get at 1. rewrite Hv. reflexivity.
  - intros fields n -> Hv Hn. cbn [Py.bind]. unfold Py.get at 1. rewrite Hv.
    cbn [Py.eq_int].
    destruct (Z.eqb_spec n Cache.CACHE_VERSION); [contradiction | reflexivity].
  - intros fields -> He. cbn [Py.bind]. rewrite He.
    destruct (negb _); reflexivity.
Qed.

(** The theorem at a cache file written by another version, and at a
    file that holds a list. *)
Lemma load_cache_never_fails_witness :
  let old := Py.VDict [("version", Py.VInt 2);
                       ("entries", Py.VDict [("1 Main St", Py.VDict [])])] in
  Cache._load_cache (fun _ => Cache.Loads old) "cache.json" = Py.Ok Cache.fresh
  /\ Cache._load_cache (fun _ => Cache.Loads (Py.VList [])) "cache.json"
     = Py.Ok Cache.fresh.
Proof.
  intros old. split.
  - destruct (load_cache_never_fails (fun _ => Cache.Loads old) "cache.json")
      as (_ & _ & _ & _ & _ & _ & Hversion & _).
    apply (Hversion _ 2 eq_refl eq_refl). discriminate.
  - destruct (load_cache_never_fails (fun _ => Cache.Loads (Py.VList [])) "cache.json")
      as (_ & _ & _ & _ & Hshape & _).
    exact (Hshape _ eq_refl eq_refl).
Defined.

(* ================================================================== *)
(** * C10: coordinate parsing                                          *)
(* ================================================================== *)




(* ================================================================== *)
(** * C7: the cache round trip                                         *)
(* ================================================================== *)





(* ================================================================== *)
(** * Facts about binary64 arithmetic                                  *)
(* ================================================================== *)

Section FloatFacts.

Import Py Geo.


Lemma opp_involutive (x : F64.float) : F64.opp (F64.opp x) = x.
Proof. destruct x; simpl; now rewrite ?negb_involutive. Qed.








(** ** Products that cannot overflow *)











End FloatFacts.

(* ================================================================== *)
(** * C9: the great-circle distance                                    *)
(* ================================================================== *)

Section Haversine.

Import Py Geo Notions.
Context `{Platform}.




Section OddSine.

Hypothesis sin_odd : forall x, libm_sin (F64.opp x) = F64.opp (libm_sin x).






End OddSine.



Section ZeroDistance.

Hypothesis sin_zero : libm_sin F64.zero = F64.zero.
Hypothesis cos_range :
  forall x, F64.is_finite x = true ->
            F64.valid (libm_cos x) = true
            /\ F64.leb (F64.opp F64.one) (libm_cos x) = true
            /\ F64.leb (libm_cos x) F64.one = true.






End ZeroDistance.

Lemma eqb_refl (x : F64.float) : F64.is_nan x = false -> F64.eqb x x = true.
Proof.
  unfold F64.eqb, SFeqb, SFcompare.
  destruct x as [s | s | | s m e]; try discriminate; intros _.
  - reflexivity.
  - destruct s; reflexivity.
  - rewrite Z.compare_refl, Pos.compare_cont_refl. destruct s; reflexivity.
Qed.

End Haversine.



(* ================================================================== *)
(** * Column resolution                                                *)
(* ================================================================== *)

Section ColumnResolution.

Import Py Run Notions.

Lemma mem_iff_In (x : string) (names : list string) :
  Text.mem x names = true <-> In x names.
Proof.
  split; [apply mem_In |].
  induction names as [| y names IH]; simpl; [tauto |].
  intros [-> | Hin].
  - now rewrite String.eqb_refl.
  - rewrite (IH Hin). apply orb_true_r.
Qed.





End ColumnResolution.





(* ================================================================== *)
(** * Cache keys and cache documents                                   *)
(* ================================================================== *)


Section CacheDocuments.

Import Py Provider Cache Run Notions RunNotions.

Lemma fresh_well_formed : well_formed_cache fresh = true.
Proof. reflexivity. Qed.

(** Whatever the file holds, [_load_cache] returns a well-formed
    document. *)
Lemma load_cache_result (files : string -> cache_file_state) (path : string) :
  exists cache,
    _load_cache files path = Ok cache /\ well_formed_cache cache = true.
Proof.
  unfold _load_cache.
  destruct (Text.is_empty path); [exists fresh; now split |].
  destruct (files path) as [| e | data]; cbn [bind try_except].
  - exists fresh; now split.
  - exists fresh; now split.
  - destruct data as [| | | | | | fields]; try (exists fresh; now split).
    destruct (eq_int (get fields "version") CACHE_VERSION) eqn:Hversion;
      cbn [negb]; [| exists fresh; now split].
    destruct (is_dict (get fields "entries")) eqn:Hentries;
      cbn [negb]; [| exists fresh; now split].
    exists (VDict fields). split; [reflexivity |].
    cbn [well_formed_cache]. now rewrite Hversion, Hentries.
Qed.

(** A well-formed document on disk is returned as it is. *)
Lemma load_cache_keeps (files : string -> cache_file_state) (path : string)
    (data : pyval) :
  Text.is_empty path = false ->
  files path = Loads data ->
  well_formed_cache data = true ->
  _load_cache files path = Ok data.
Proof.
  intros Hpath Hfile Hwf. unfold _load_cache. rewrite Hpath, Hfile.
  cbn [bind try_except].
  destruct data as [| | | | | | fields]; try discriminate Hwf.
  cbn [well_formed_cache] in Hwf. apply andb_prop in Hwf as [Hversion Hentries].
  now rewrite Hversion, Hentries.
Qed.

End CacheDocuments.

(** X5: [_load_cache] always returns a dict with version 1 and a dict
    of entries, and a document on disk that has this form is returned
    unchanged. *)
Theorem load_cache_returns_well_formed
    (files : string -> Cache.cache_file_state) (path : string) :
  (exists cache,
      Cache._load_cache files path = Py.Ok cache
      /\ RunNotions.well_formed_cache cache = true)
  /\ (forall data,
        Text.is_empty path = false ->
        files path = Cache.Loads data ->
        RunNotions.well_formed_cache data = true ->
        Cache._load_cache files path = Py.Ok data).
Proof.
  split; [apply load_cache_result |].
  intros data. apply load_cache_keeps.
Qed.

Lemma load_cache_returns_well_formed_witness :
  let stored := Py.VDict [("entries", Py.VDict [("1 Main St", Py.VDict [])]);
                          ("version", Py.VBool true)] in
  Cache._load_cache (fun _ => Cache.Loads stored) "cache.json" = Py.Ok stored.
Proof.
  intros stored.
  destruct (load_cache_returns_well_formed (fun _ => Cache.Loads stored) "cache.json")
    as [_ Hkeeps].
  apply Hkeeps; reflexivity.
Defined.

(* ================================================================== *)
(** * The provider client on any document                              *)
(* ================================================================== *)

Section AnyDocument.

Import Py Geo Provider Notions RunNotions.
Context `{Platform}.

Lemma of_opt_float_optional (x : option F64.float) :
  optional_float (of_opt_float x) = true.
Proof. now destruct x. Qed.

(** The range test never fails on an [Optional[float]]. *)
Lemma is_valid_optional (lat lng : pyval) :
  optional_float lat = true -> optional_float lng = true ->
  exists valid, _is_valid_lat_lng lat lng = Ok valid.
Proof.
  intros Hlat Hlng.
  destruct lat; try discriminate Hlat; destruct lng; try discriminate Hlng.
  - now exists false.
  - now exists false.
  - now exists false.
  - exists (in_range (Some x) (Some x0)). apply (is_valid_stored (Some x) (Some x0)).
Qed.

Lemma geocode_address_on_dict (top : dict pyval) :
  exists result,
    geocode_address (Replies (VDict top)) = Ok result
    /\ raw result = VDict top
    /\ optional_float (latitude result) = true
    /\ optional_float (longitude result) = true
    /\ is_none (location_type result) || is_str (location_type result) = true
    /\ (status result = "OK" -> 1 <= result_count result)
    /\ (status result <> "OK" ->
        formatted_address result = VNone
        /\ latitude result = VNone /\ longitude result = VNone
        /\ location_type result = VNone /\ partial_match result = false).
Proof.
  unfold geocode_address.
  assert (Hlt : forall lt : pyval,
            is_none (if is_none lt then VNone else VStr (str lt))
            || is_str (if is_none lt then VNone else VStr (str lt)) = true).
  { intros lt. now destruct (is_none lt). }
  destruct (String.eqb _ "OK") eqn:Hstatus; cbn [negb].
  2: { eexists. split; [reflexivity |].
       cbn [raw latitude longitude location_type status result_count
            formatted_address partial_match optional_float is_none is_str orb].
       apply String.eqb_neq in Hstatus. repeat split; tauto. }
  apply String.eqb_eq in Hstatus.
  destruct (Z.of_nat _ =? 0) eqn:Hcount.
  { eexists. split; [reflexivity |].
    cbn [raw latitude longitude location_type status result_count
         formatted_address partial_match optional_float is_none is_str orb].
    repeat split; discriminate. }
  apply Z.eqb_neq in Hcount.
  set (first := match head_or_none _ with VDict f => f | _ => [] end).
  assert (Hdone : forall (lt lat lng : pyval),
            optional_float lat = true -> optional_float lng = true ->
            is_none lt || is_str lt = true ->
            forall (fa em : pyval) (pm : bool), exists result,
              Ok {| status := str (get_default top "status" (VStr ""));
                    formatted_address := fa; latitude := lat; longitude := lng;
                    result_count :=
                      Z.of_nat (List.length
                                  match get top "results" with
                                  | VList items => items
                                  | _ => []
                                  end);
                    partial_match := pm; location_type := lt;
                    error_message := em; raw := VDict top |} = Ok result
              /\ raw result = VDict top
              /\ optional_float (latitude result) = true
              /\ optional_float (longitude result) = true
              /\ is_none (location_type result) || is_str (location_type result) = true
              /\ (status result = "OK" -> 1 <= result_count result)
              /\ (status result <> "OK" ->
                  formatted_address result = VNone
                  /\ latitude result = VNone /\ longitude result = VNone
                  /\ location_type result = VNone /\ partial_match result = false)).
  { intros lt lat lng Hlat Hlng Hty fa em pm. eexists. split; [reflexivity |].
    cbn [raw latitude longitude location_type status result_count
         formatted_address partial_match].
    repeat split; trivial; [lia | congruence ..]. }
  destruct (get first "geometry") as [| | | | | | g]; cbn [bind];
    try (apply Hdone; reflexivity).
  destruct (get g "location") as [| | | | | | loc]; cbn [bind];
    try (apply Hdone; [reflexivity | reflexivity | apply Hlt]).
  destruct (parse_float_total (get loc "lat")) as [lat Elat].
  destruct (parse_float_total (get loc "lng")) as [lng Elng].
  rewrite Elat, Elng. cbn [bind].
  apply Hdone; [apply of_opt_float_optional | apply of_opt_float_optional | apply Hlt].
Qed.

End AnyDocument.

(** X6: [geocode_address] builds a result from every reply that decodes
    to a JSON object, whatever it holds: the coordinates are [None] or
    floats, the location type is [None] or text, a status "OK" comes
    with at least one result, and any other status comes without
    address, coordinates and location type.  A reply that decodes to
    anything but an object raises [AttributeError]. *)
Theorem geocode_address_decodes_any_object `{Py.Platform} :
  (forall top : Py.dict Py.pyval,
     exists result,
       Provider.geocode_address (Provider.Replies (Py.VDict top)) = Py.Ok result
       /\ Provider.raw result = Py.VDict top
       /\ RunNotions.optional_float (Provider.latitude result) = true
       /\ RunNotions.optional_float (Provider.longitude result) = true
       /\ Py.is_none (Provider.location_type result)
          || Py.is_str (Provider.location_type result) = true
       /\ (Provider.status result = "OK" -> 1 <= Provider.result_count result)
       /\ (Provider.status result <> "OK" ->
           Provider.formatted_address result = Py.VNone
           /\ Provider.latitude result = Py.VNone
           /\ Provider.longitude result = Py.VNone
           /\ Provider.location_type result = Py.VNone
           /\ Provider.partial_match result = false))
  /\ (forall document,
        Py.is_dict document = false ->
        Provider.geocode_address (Provider.Replies document)
        = Py.Raise (Py.Exc Py.AttributeError)).
Proof.
  split; [exact geocode_address_on_dict |].
  intros document Hdoc. destruct document; try reflexivity. discriminate Hdoc.
Qed.

Lemma geocode_address_decodes_any_object_witness :
  Provider.geocode_address
    (Provider.Replies (Py.VDict [("status", Py.VStr "OVER_QUERY_LIMIT");
                                 ("results", Py.VInt 3)]))
  = Py.Ok {| Provider.status := "OVER_QUERY_LIMIT";
             Provider.formatted_address := Py.VNone;
             Provider.latitude := Py.VNone; Provider.longitude := Py.VNone;
             Provider.result_count := 0; Provider.partial_match := false;
             Provider.location_type := Py.VNone; Provider.error_message := Py.VNone;
             Provider.raw := Py.VDict [("status", Py.VStr "OVER_QUERY_LIMIT");
                                       ("results", Py.VInt 3)] |}
  /\ Provider.geocode_address (Provider.Replies (Py.VList []))
     = Py.Raise (Py.Exc Py.AttributeError).
Proof.
  destruct (@geocode_address_decodes_any_object small_angle_platform)
    as [Hobject Hother].
  split; [| apply Hother; reflexivity].
  destruct (Hobject [("status", Py.VStr "OVER_QUERY_LIMIT"); ("results", Py.VInt 3)])
    as (result & Hrun & _).
  reflexivity.
Defined.

(* ================================================================== *)
(** * The shape of a row's effect                                      *)
(* ================================================================== *)

Section RowShape.

Import Py Geo Provider Cache Run Notions RunNotions.
Context `{Platform}.

Variables (args : Args) (w : World) (api_key : string) (cols : Columns).

(** A lookup is a hit, which changes nothing but the hit counter, or a
    miss, which counts, sends the request and may store the answer. *)
Lemma geocode_with_cache_effect (address : string) (st : State) :
  let looked_up := geocode_with_cache args w api_key address st in
  (nonempty (cache_file args) = true
   /\ dict_mem (cache_entries st) (_normalize_address address) = true
   /\ snd looked_up = bump cache_hits st)
  \/ (snd looked_up = emit (Request address) (bump cache_misses st)
      /\ (nonempty (cache_file args) = false
          \/ exists e, fst looked_up = Raise (Exc e)))
  \/ (exists result,
        nonempty (cache_file args) = true
        /\ fst looked_up = Ok result
        /\ snd looked_up
           = store (_normalize_address address) (_geocode_result_to_cache_entry result)
               (emit (Request address) (bump cache_misses st))).
Proof.
  destruct (geocode_with_cache_cases args w api_key address st)
    as [(r & Hfile & Hmem & _ & E) | [(e & _ & E) | (r & _ & E)]];
    cbv zeta; rewrite E; cbn [fst snd].
  - left. repeat split; assumption.
  - right; left. split; [reflexivity | right; now exists e].
  - destruct (nonempty (cache_file args)) eqn:Hfile.
    + right; right. exists r. repeat split.
    + right; left. split; [reflexivity | now left].
Qed.

(** The branches of the loop body, lines 462-545, by the state each one
    leaves. *)
Lemma process_row_shape (r : row) (st st' : State) :
  process_row args w api_key cols r st = Ok st' ->
  let address := Text.strip (text_or_empty (row_get r (address_col cols))) in
  let pause := fun s : State =>
    if 0 <? sleep_ms args then emit (Sleep (sleep_ms args)) s else s in
  (Text.is_empty address = true /\ st' = bump skipped_missing_address st)
  \/ (Text.is_empty address = false
      /\ ((exists record,
             record_of r record
             /\ st' = append_mismatch record
                        (snd (geocode_with_cache args w api_key address
                                (bump mismatched (bump invalid_coord_mismatches st)))))
          \/ (let looked_up := geocode_with_cache args w api_key address st in
              st' = bump skipped_geocode_failure (snd looked_up)
              \/ st' = bump skipped_ambiguous (snd looked_up)
              \/ exists result distance_m,
                   fst looked_up = Ok result
                   /\ status result = "OK"
                   /\ ((F64.leb distance_m (tolerance_meters args) = true
                        /\ st' = pause (bump matched (bump checked_rows (snd looked_up))))
                       \/ (F64.leb distance_m (tolerance_meters args) = false
                           /\ exists record,
                                record_of r record
                                /\ st' = pause (append_mismatch record
                                                  (bump mismatched
                                                     (bump checked_rows
                                                        (snd looked_up))))))))).
Proof.
  intros Hrun address pause. unfold process_row in Hrun. fold address in Hrun.
  destruct (parse_float_total (cell (row_get r (lat_col cols)))) as [lat Elat].
  destruct (parse_float_total (cell (row_get r (lng_col cols)))) as [lng Elng].
  rewrite Elat, Elng in Hrun. cbn [bind] in Hrun.
  destruct (Text.is_empty address) eqn:Haddr.
  { left. split; [reflexivity | now injection Hrun]. }
  right. split; [reflexivity |].
  rewrite is_valid_stored in Hrun. cbn [bind] in Hrun.
  destruct (in_range lat lng); cbn [negb] in Hrun.
  - right. cbv zeta.
    destruct (geocode_with_cache args w api_key address st) as [attempt st1].
    cbn [fst snd].
    destruct attempt as [result | [e | msg]]; [| | discriminate].
    + destruct (String.eqb (status result) "OK") eqn:Hstatus; cbn [negb or_else_cond] in Hrun.
      2: { left. now injection Hrun. }
      destruct (_is_valid_lat_lng _ _) as [[|] |]; cbn [bind negb] in Hrun;
        [| left; now injection Hrun | discriminate].
      destruct (_ambiguous_reason result) as [reason |]; [| discriminate].
      cbn [bind] in Hrun. destruct (nonempty reason).
      { right; left. now injection Hrun. }
      repeat match type of Hrun with
             | context [bind ?m _] =>
                 destruct m; [cbn [bind] in Hrun | discriminate]
             end.
      right; right. injection Hrun as <-.
      apply String.eqb_eq in Hstatus.
      match goal with
      | |- context [F64.leb ?d (tolerance_meters args)] => exists result, d
      end.
      split; [reflexivity |]. split; [exact Hstatus |].
      destruct (F64.leb _ _); [left | right]; (split; [reflexivity |]).
      * reflexivity.
      * eexists. split; [| reflexivity]. unfold record_of. eauto.
    + left. now injection Hrun.
  - left.
    destruct (geocode_with_cache args w api_key address _) as [attempt st1].
    cbn [snd].
    destruct (enrich attempt) as [[google_lat google_lng] |]; [| discriminate].
    cbn [bind] in Hrun. injection Hrun as <-.
    eexists. split; [| reflexivity]. unfold record_of. eauto.
Qed.

(** A property of the loop's variables that every row keeps holds after
    the loop. *)
Lemma process_rows_invariant (P : State -> Prop) (rs : list row) :
  (forall r st st',
      In r rs -> P st ->
      process_row args w api_key cols r (bump total_rows st) = Ok st' -> P st') ->
  forall st st', P st -> process_rows args w api_key cols rs st = Ok st' -> P st'.
Proof.
  induction rs as [| r rs IH]; intros Hstep st st' Hinv Hrun; simpl in Hrun.
  - now injection Hrun as <-.
  - destruct (match max_rows args with Some _ => _ | None => _ end).
    { now injection Hrun as <-. }
    destruct (process_row args w api_key cols r (bump total_rows st))
      as [st1 |] eqn:Erow; [| discriminate].
    cbn [bind] in Hrun. apply (IH (fun r' st0 st0' Hin => Hstep r' st0 st0' (or_intror Hin))
                                 st1 st'); [| exact Hrun].
    exact (Hstep r st st1 (or_introl eq_refl) Hinv Erow).
Qed.

End RowShape.

Section WholeRun.

Import Py Geo Provider Cache Run Notions RunNotions.
Context `{Platform}.

(** A run that writes its outputs: the cache it started from, the
    columns it resolved, the loop's final state, and each output in
    terms of them. *)
Lemma main_completed (args : Args) (w : World) (code : Z) (out : Outputs) :
  main args w = Ok (code, Some out) ->
  exists (names : list string) (cache_fields : dict pyval) (cols : Columns)
         (st : State),
    let entries := match get cache_fields "entries" with VDict e => e | _ => [] end in
    code = 0
    /\ dry_run args = false
    /\ fieldnames w = Some names
    /\ well_formed_cache (VDict cache_fields) = true
    /\ (nonempty (cache_file args) = true ->
        _load_cache (cache_files w) (text_or_empty (cache_file args))
        = Ok (VDict cache_fields))
    /\ (nonempty (cache_file args) = false -> entries = [])
    /\ process_rows args w (text_or_empty (api_key_env w)) cols (rows w)
         (initial entries) = Ok st
    /\ summary out = summarize st
    /\ output_fieldnames out
       = fold_left (fun names extra_col =>
                      if Text.mem extra_col names then names
                      else (names ++ [extra_col])%list)
           extra_columns names
    /\ written_mismatches out = mismatches st
    /\ saved_cache out
       = (if nonempty (cache_file args)
          then Some (VDict (dict_set cache_fields "entries" (VDict (cache_entries st))))
          else None)
    /\ effects out = trace st.
Proof.
  unfold main. intros Hmain.
  destruct (F64.ltb _ _); [discriminate |].
  destruct (negb (dry_run args) && negb (nonempty (api_key_env w))); [discriminate |].
  set (loaded := if negb (dry_run args) && nonempty (cache_file args) then _ else _)
    in Hmain.
  assert (Hloaded : exists cache_fields,
            loaded = Ok (VDict cache_fields)
            /\ well_formed_cache (VDict cache_fields) = true
            /\ (negb (dry_run args) && nonempty (cache_file args) = false ->
                cache_fields = [("version", VInt CACHE_VERSION); ("entries", VDict [])])).
  { subst loaded.
    destruct (negb (dry_run args) && nonempty (cache_file args)).
    - destruct (load_cache_result (cache_files w) (text_or_empty (cache_file args)))
        as (cache & Hload & Hwf).
      destruct cache as [| | | | | | cache_fields]; try discriminate Hwf.
      exists cache_fields. repeat split; trivial. discriminate.
    - eexists. repeat split. }
  destruct Hloaded as (cache_fields & Hload & Hwf & Hfresh).
  assert (Eload : loaded = Ok (VDict cache_fields)) by exact Hload.
  rewrite Eload in Hmain. cbn [bind] in Hmain.
  destruct (fieldnames w) as [names |]; [| discriminate].
  destruct (_required_column names (id_column args) "id"); [| discriminate].
  destruct (_required_column names (address_column args) "address"); [| discriminate].
  destruct (_required_column names (lat_column args) "latitude"); [| discriminate].
  destruct (_required_column names (lng_column args) "longitude"); [| discriminate].
  cbn [bind] in Hmain.
  destruct (dry_run args) eqn:Hdry; [discriminate |].
  match type of Hmain with
  | context [process_rows ?a ?b ?k ?c ?rs ?s0] =>
      destruct (process_rows a b k c rs s0) as [st |] eqn:Eloop; [| discriminate]
  end.
  cbn [bind] in Hmain. injection Hmain as <- <-.
  exists names, cache_fields. eexists. exists st. cbv zeta.
  split; [reflexivity |]. split; [reflexivity |]. split; [reflexivity |].
  split; [exact Hwf |]. cbn [negb andb] in *.
  split.
  { intros Hfile. subst loaded. rewrite Hfile in Hload. exact Hload. }
  split.
  { intros Hfile. rewrite (Hfresh Hfile). reflexivity. }
  split; [exact Eloop |].
  repeat split.
Qed.

End WholeRun.

(* ================================================================== *)
(** * Lookups, requests and delays of a run                            *)
(* ================================================================== *)

Section Ledger.

Import Py Geo Provider Cache Run Notions RunNotions.
Context `{Platform}.

Variables (args : Args) (w : World) (api_key : string) (cols : Columns).

Lemma requests_app (t u : list event) : requests (t ++ u) = requests t + requests u.
Proof. unfold requests. rewrite filter_app, length_app. lia. Qed.

Lemma sleeps_app (t u : list event) : sleeps (t ++ u) = sleeps t + sleeps u.
Proof. unfold sleeps. rewrite filter_app, length_app. lia. Qed.

(** What one lookup adds to the counters and to the trace. *)
Lemma lookup_ledger (address : string) (st : State) :
  let st' := snd (geocode_with_cache args w api_key address st) in
  count st' cache_hits + count st' cache_misses
  = count st cache_hits + count st cache_misses + 1
  /\ requests (trace st') - requests (trace st)
     = count st' cache_misses - count st cache_misses
  /\ sleeps (trace st') = sleeps (trace st)
  /\ (nonempty (cache_file args) = false ->
      count st' cache_hits = count st cache_hits
      /\ cache_entries st' = cache_entries st)
  /\ (forall key, dict_mem (cache_entries st) key = true ->
                  dict_mem (cache_entries st') key = true).
Proof.
  destruct (geocode_with_cache_effect args w api_key address st)
    as [(Hfile & _ & E) | [[E _] | (result & Hfile & _ & E)]];
    cbv zeta; rewrite E;
    cbn [count bump store emit counter_eqb trace cache_entries];
    rewrite ?requests_app, ?sleeps_app;
    change (requests [Request address]) with 1;
    change (sleeps [Request address]) with 0.
  - repeat split; try lia; trivial; congruence.
  - repeat split; try lia; trivial.
  - repeat split; try lia; try congruence.
    intros key Hmem. unfold dict_mem in *.
    destruct (String.eqb_spec (_normalize_address address) key) as [<- | Hne].
    + now rewrite dict_get_set_same.
    + now rewrite dict_get_set_other.
Qed.

(** What one row adds: one lookup unless the address is missing, a
    request for each miss, a delay exactly when the row is checked; and
    no cache entry is lost. *)
Lemma row_ledger (r : row) (st st' : State) :
  process_row args w api_key cols r st = Ok st' ->
  count st' cache_hits + count st' cache_misses + count st' skipped_missing_address
  = count st cache_hits + count st cache_misses + count st skipped_missing_address + 1
  /\ requests (trace st') - requests (trace st)
     = count st' cache_misses - count st cache_misses
  /\ sleeps (trace st') - sleeps (trace st)
     = (if 0 <? sleep_ms args
        then count st' checked_rows - count st checked_rows else 0)
  /\ count st checked_rows <= count st' checked_rows
  /\ (nonempty (cache_file args) = false ->
      count st' cache_hits = count st cache_hits
      /\ cache_entries st' = cache_entries st)
  /\ (forall key, dict_mem (cache_entries st) key = true ->
                  dict_mem (cache_entries st') key = true).
Proof.
  intros Hrun.
  destruct (process_row_shape args w api_key cols r st st' Hrun)
    as [[_ ->] | [_ Hlooked]].
  { cbn [count bump counter_eqb trace cache_entries].
    destruct (0 <? sleep_ms args); repeat split; trivial; lia. }
  assert (Hsleep : sleeps [Sleep (sleep_ms args)] = 1) by reflexivity.
  assert (Hreq : requests [Sleep (sleep_ms args)] = 0) by reflexivity.
  destruct Hlooked as [(record & _ & ->) | Hvalid].
  - match goal with
    | |- context [geocode_with_cache ?a ?b ?k ?ad ?s0] =>
        destruct (lookup_ledger ad s0) as (Hn & Hr & Hs & Hoff & Hkeep);
        destruct (geocode_with_cache_frame a b k ad s0) as [Hframe _];
        pose proof (Hframe skipped_missing_address ltac:(discriminate) ltac:(discriminate)) as Hf1;
        pose proof (Hframe checked_rows ltac:(discriminate) ltac:(discriminate)) as Hf2;
        set (st1 := snd (geocode_with_cache a b k ad s0)) in *
    end.
    cbv zeta in *.
    cbn [count bump append_mismatch counter_eqb trace cache_entries] in *.
    destruct (0 <? sleep_ms args); repeat split; trivial; try lia;
      apply Hoff; assumption.
  - cbv zeta in Hvalid.
    match type of Hvalid with
    | context [geocode_with_cache ?a ?b ?k ?ad ?s0] =>
        destruct (lookup_ledger ad s0) as (Hn & Hr & Hs & Hoff & Hkeep);
        destruct (geocode_with_cache_frame a b k ad s0) as [Hframe _];
        pose proof (Hframe skipped_missing_address ltac:(discriminate) ltac:(discriminate)) as Hf1;
        pose proof (Hframe checked_rows ltac:(discriminate) ltac:(discriminate)) as Hf2;
        set (st1 := snd (geocode_with_cache a b k ad s0)) in *
    end.
    cbv zeta in *.
    destruct Hvalid
      as [-> | [-> | (result & d & _ & _ & [[_ ->] | (_ & record & _ & ->)])]];
      destruct (0 <? sleep_ms args);
      cbn [count bump append_mismatch emit counter_eqb trace cache_entries] in *;
      rewrite ?requests_app, ?sleeps_app, ?Hsleep, ?Hreq;
      repeat split; trivial; try lia; apply Hoff; assumption.
Qed.

(** The ledger of the whole loop. *)
Lemma loop_ledger (rs : list row) (st st' : State) :
  process_rows args w api_key cols rs st = Ok st' ->
  count st' cache_hits + count st' cache_misses + count st' skipped_missing_address
  - count st' total_rows
  = count st cache_hits + count st cache_misses + count st skipped_missing_address
    - count st total_rows
  /\ requests (trace st') - count st' cache_misses
     = requests (trace st) - count st cache_misses
  /\ sleeps (trace st') - (if 0 <? sleep_ms args then count st' checked_rows else 0)
     = sleeps (trace st) - (if 0 <? sleep_ms args then count st checked_rows else 0)
  /\ (nonempty (cache_file args) = false ->
      count st' cache_hits = count st cache_hits
      /\ cache_entries st' = cache_entries st)
  /\ (forall key, dict_mem (cache_entries st) key = true ->
                  dict_mem (cache_entries st') key = true).
Proof.
  intros Hrun.
  refine (process_rows_invariant args w api_key cols
           (fun s =>
              count s cache_hits + count s cache_misses + count s skipped_missing_address
              - count s total_rows
              = count st cache_hits + count st cache_misses
                + count st skipped_missing_address - count st total_rows
              /\ requests (trace s) - count s cache_misses
                 = requests (trace st) - count st cache_misses
              /\ sleeps (trace s)
                 - (if 0 <? sleep_ms args then count s checked_rows else 0)
                 = sleeps (trace st)
                   - (if 0 <? sleep_ms args then count st checked_rows else 0)
              /\ (nonempty (cache_file args) = false ->
                  count s cache_hits = count st cache_hits
                  /\ cache_entries s = cache_entries st)
              /\ (forall key, dict_mem (cache_entries st) key = true ->
                              dict_mem (cache_entries s) key = true))
           rs _ st st' _ Hrun).
  - intros r s s' _ (I1 & I2 & I3 & I4 & I5) Hrow.
    destruct (process_row_classified args w api_key cols r _ s' Hrow) as (_ & _ & Htotal).
    destruct (row_ledger r _ s' Hrow) as (L1 & L2 & L3 & _ & L4 & L5).
    cbn [count bump counter_eqb trace cache_entries] in *.
    split; [lia |]. split; [lia |].
    split; [destruct (0 <? sleep_ms args); lia |].
    split.
    + intros Hfile. destruct (L4 Hfile) as [-> ->]. exact (I4 Hfile).
    + intros key Hmem. apply L5, I5, Hmem.
  - repeat split; trivial.
Qed.

End Ledger.

(** X7: in a completed run every row with an address is looked up
    exactly once, as a cache hit or as a cache miss, and the requests
    sent are as many as the cache misses. *)
Theorem every_lookup_is_a_hit_or_a_request `{Py.Platform}
    (args : Run.Args) (w : Run.World) (code : Z) (out : Run.Outputs) :
  Run.main args w = Py.Ok (code, Some out) ->
  Summary.cache_hits (Run.summary out) + Summary.cache_misses (Run.summary out)
  = Summary.total_rows (Run.summary out)
    - Summary.skipped_missing_address (Run.summary out)
  /\ RunNotions.requests (Run.effects out) = Summary.cache_misses (Run.summary out).
Proof.
  intros Hmain.
  destruct (main_completed args w code out Hmain)
    as (names & cache_fields & cols & st & _ & _ & _ & _ & _ & _ & Hloop & Hsum
        & _ & _ & _ & Heff).
  destruct (loop_ledger args w _ cols _ _ st Hloop) as (L1 & L2 & _).
  rewrite Hsum, Heff. cbn in *. lia.
Qed.

Lemma every_lookup_is_a_hit_or_a_request_witness :
  exists out,
    Run.main (Demo.args 50 (Some "cache.json") 0)
      (Demo.world (Some "k") Demo.no_files (Some Demo.header)
         Demo.eight_rows Demo.answers) = Py.Ok (0, Some out)
    /\ Summary.cache_hits (Run.summary out) = 3
    /\ Summary.cache_hits (Run.summary out) + Summary.cache_misses (Run.summary out)
       = Summary.total_rows (Run.summary out)
         - Summary.skipped_missing_address (Run.summary out)
    /\ RunNotions.requests (Run.effects out) = Summary.cache_misses (Run.summary out).
Proof.
  eexists. split; [vm_compute; reflexivity |]. split; [reflexivity |].
  apply (every_lookup_is_a_hit_or_a_request
           (Demo.args 50 (Some "cache.json") 0)
           (Demo.world (Some "k") Demo.no_files (Some Demo.header)
              Demo.eight_rows Demo.answers) 0).
  vm_compute. reflexivity.
Defined.

(** X8: a completed run with a positive [--sleep-ms] takes the delay
    once for each row that reached the distance check, and a run with
    [--sleep-ms 0] or less takes none. *)
Theorem one_delay_per_checked_row `{Py.Platform}
    (args : Run.Args) (w : Run.World) (code : Z) (out : Run.Outputs) :
  Run.main args w = Py.Ok (code, Some out) ->
  RunNotions.sleeps (Run.effects out)
  = (if 0 <? Run.sleep_ms args then Summary.checked_rows (Run.summary out) else 0).
Proof.
  intros Hmain.
  destruct (main_completed args w code out Hmain)
    as (names & cache_fields & cols & st & _ & _ & _ & _ & _ & _ & Hloop & Hsum
        & _ & _ & _ & Heff).
  destruct (loop_ledger args w _ cols _ _ st Hloop) as (_ & _ & L3 & _).
  rewrite Hsum, Heff. cbn in *. destruct (0 <? Run.sleep_ms args); lia.
Qed.

Lemma one_delay_per_checked_row_witness :
  exists out,
    Run.main (Demo.args 50 None 100)
      (Demo.world (Some "k") Demo.no_files (Some Demo.header)
         Demo.eight_rows Demo.answers) = Py.Ok (0, Some out)
    /\ RunNotions.requests (Run.effects out) = 7
    /\ RunNotions.sleeps (Run.effects out) = 2
    /\ RunNotions.sleeps (Run.effects out) = Summary.checked_rows (Run.summary out).
Proof.
  eexists. split; [vm_compute; reflexivity |].
  split; [reflexivity |]. split; [reflexivity |].
  apply (one_delay_per_checked_row (Demo.args 50 None 100)
           (Demo.world (Some "k") Demo.no_files (Some Demo.header)
              Demo.eight_rows Demo.answers) 0).
  vm_compute. reflexivity.
Defined.

(** X9: a run without a cache file never counts a cache hit, sends one
    request for every row that has an address, and hands nothing to
    [_save_cache]. *)
Theorem without_cache_file_every_lookup_is_a_request `{Py.Platform}
    (args : Run.Args) (w : Run.World) (code : Z) (out : Run.Outputs) :
  Run.nonempty (Run.cache_file args) = false ->
  Run.main args w = Py.Ok (code, Some out) ->
  Summary.cache_hits (Run.summary out) = 0
  /\ RunNotions.requests (Run.effects out)
     = Summary.total_rows (Run.summary out)
       - Summary.skipped_missing_address (Run.summary out)
  /\ Run.saved_cache out = None.
Proof.
  intros Hfile Hmain.
  destruct (main_completed args w code out Hmain)
    as (names & cache_fields & cols & st & _ & _ & _ & _ & _ & _ & Hloop & Hsum
        & _ & _ & Hsaved & Heff).
  destruct (loop_ledger args w _ cols _ _ st Hloop) as (L1 & L2 & _ & L4 & _).
  destruct (L4 Hfile) as [Hhits _].
  rewrite Hsum, Heff, Hsaved, Hfile. cbn in *. repeat split; lia.
Qed.

Lemma without_cache_file_every_lookup_is_a_request_witness :
  exists out,
    Run.main (Demo.args 50 None 0)
      (Demo.world (Some "k") Demo.no_files (Some Demo.header)
         Demo.eight_rows Demo.answers) = Py.Ok (0, Some out)
    /\ Summary.cache_hits (Run.summary out) = 0
    /\ RunNotions.requests (Run.effects out)
       = Summary.total_rows (Run.summary out)
         - Summary.skipped_missing_address (Run.summary out)
    /\ Run.saved_cache out = None.
Proof.
  eexists. split; [vm_compute; reflexivity |].
  apply (without_cache_file_every_lookup_is_a_request (Demo.args 50 None 0)
           (Demo.world (Some "k") Demo.no_files (Some Demo.header)
              Demo.eight_rows Demo.answers) 0).
  - reflexivity.
  - vm_compute. reflexivity.
Defined.

(* ================================================================== *)
(** * The mismatch file                                                *)
(* ================================================================== *)

Section MismatchFile.

Import Py Geo Provider Cache Run Notions RunNotions.
Context `{Platform}.

Lemma row_get_set_same (r : row) (col : string) (c : option string) :
  row_get (dict_set r col c) col = c.
Proof. unfold row_get. now rewrite dict_get_set_same. Qed.

Lemma row_get_set_other (r : row) (col col' : string) (c : option string) :
  col <> col' -> row_get (dict_set r col c) col' = row_get r col'.
Proof. intros Hne. unfold row_get. now rewrite dict_get_set_other. Qed.

(** The cells of a mismatch record: the three added ones hold text, the
    others are the row's. *)
Lemma record_of_cells (r record : row) :
  record_of r record ->
  (forall col, ~ In col extra_columns -> row_get record col = row_get r col)
  /\ (forall col, In col extra_columns -> exists text, row_get record col = Some text).
Proof.
  intros (google_lat & google_lng & distance & ->). split.
  - intros col Hcol. cbn [extra_columns In] in Hcol.
    rewrite !row_get_set_other; [reflexivity | intros <-; tauto ..].
  - intros col [<- | [<- | [<- | []]]].
    + exists google_lat.
      rewrite !row_get_set_other by discriminate. apply row_get_set_same.
    + exists google_lng.
      rewrite row_get_set_other by discriminate. apply row_get_set_same.
    + exists distance. apply row_get_set_same.
Qed.

Lemma keys_dict_set {V : Type} (d : dict V) (k k' : string) (v : V) :
  In k' (keys (dict_set d k v)) -> k' = k \/ In k' (keys d).
Proof.
  induction d as [| [k0 v0] d IH]; cbn [dict_set keys map fst In].
  - intros [<- | []]. now left.
  - destruct (String.eqb_spec k k0) as [-> | Hne]; cbn [keys map fst In].
    + tauto.
    + intros [<- | Hin]; [tauto |]. destruct (IH Hin); tauto.
Qed.

Lemma record_of_keys (r record : row) (col : string) :
  record_of r record -> In col (keys record) ->
  In col extra_columns \/ In col (keys r).
Proof.
  intros (google_lat & google_lng & distance & ->) Hin.
  cbn [extra_columns In].
  repeat (apply keys_dict_set in Hin; destruct Hin as [-> | Hin]; [tauto |]).
  now right.
Qed.

(** The output header of lines 438-442: the input header, then the
    added columns it lacks. *)
Lemma output_header (extras names : list string) :
  let out := fold_left (fun names extra_col =>
                          if Text.mem extra_col names then names
                          else (names ++ [extra_col])%list) extras names in
  (exists added, out = (names ++ added)%list /\ incl added extras)
  /\ (forall col, In col extras -> In col out).
Proof.
  revert names. induction extras as [| e extras IH]; intros names; cbn [fold_left].
  - split; [exists []; split; [now rewrite app_nil_r | easy] | intros col []].
  - destruct (Text.mem e names) eqn:Hmem.
    + destruct (IH names) as [(added & -> & Hincl) Hall]. split.
      * exists added. split; [reflexivity | now apply incl_tl].
      * intros col [<- | Hin]; [| now apply Hall].
        apply in_or_app. left. now apply mem_iff_In.
    + destruct (IH (names ++ [e])%list) as [(added & Hout & Hincl) Hall]. split.
      * exists (e :: added). rewrite Hout, <- app_assoc. split; [reflexivity |].
        intros x [<- | Hx]; [now left | right; now apply Hincl].
      * intros col [<- | Hin]; [| now apply Hall].
        rewrite Hout. apply in_or_app. left. apply in_or_app. right. now left.
Qed.

Variables (args : Args) (w : World) (api_key : string) (cols : Columns).

(** A row appends one record exactly when it counts a mismatch, and
    the record is made from the row. *)
Lemma row_mismatch_record (r : row) (st st' : State) :
  process_row args w api_key cols r st = Ok st' ->
  (mismatches st' = mismatches st
   /\ count st' mismatched = count st mismatched)
  \/ (exists record,
        record_of r record
        /\ mismatches st' = (mismatches st ++ [record])%list
        /\ count st' mismatched = count st mismatched + 1).
Proof.
  intros Hrun.
  destruct (process_row_shape args w api_key cols r st st' Hrun)
    as [[_ ->] | [_ Hlooked]]; [left; now split |].
  destruct Hlooked as [(record & Hrec & ->) | Hvalid].
  - right. exists record. split; [exact Hrec |].
    match goal with
    | |- context [geocode_with_cache ?a ?b ?k ?ad ?s0] =>
        destruct (geocode_with_cache_frame a b k ad s0) as [Hframe Hmis];
        pose proof (Hframe mismatched ltac:(discriminate) ltac:(discriminate)) as Hf;
        set (st1 := snd (geocode_with_cache a b k ad s0)) in *
    end.
    cbv zeta in *. cbn [count bump append_mismatch counter_eqb mismatches] in *.
    rewrite Hmis, Hf. now split.
  - cbv zeta in Hvalid.
    match type of Hvalid with
    | context [geocode_with_cache ?a ?b ?k ?ad ?s0] =>
        destruct (geocode_with_cache_frame a b k ad s0) as [Hframe Hmis];
        pose proof (Hframe mismatched ltac:(discriminate) ltac:(discriminate)) as Hf;
        set (st1 := snd (geocode_with_cache a b k ad s0)) in *
    end.
    cbv zeta in *.
    destruct Hvalid
      as [-> | [-> | (result & d & _ & _ & [[_ ->] | (_ & record & Hrec & ->)])]];
      destruct (0 <? sleep_ms args);
      cbn [count bump append_mismatch emit counter_eqb mismatches];
      first [ left; split; [exact Hmis | exact Hf]
            | right; exists record; rewrite Hmis, Hf; now repeat split ].
Qed.

Lemma loop_mismatch_records (rs : list row) (st st' : State) :
  process_rows args w api_key cols rs st = Ok st' ->
  exists records,
    mismatches st' = (mismatches st ++ records)%list
    /\ count st' mismatched = count st mismatched + Z.of_nat (List.length records)
    /\ Forall (fun record => exists r, In r rs /\ record_of r record) records.
Proof.
  intros Hrun.
  refine (process_rows_invariant args w api_key cols
            (fun s => exists records,
                 mismatches s = (mismatches st ++ records)%list
                 /\ count s mismatched
                    = count st mismatched + Z.of_nat (List.length records)
                 /\ Forall (fun record => exists r, In r rs /\ record_of r record)
                      records)
            rs _ st st' _ Hrun).
  - intros r s s' Hin (records & I1 & I2 & I3) Hrow.
    destruct (row_mismatch_record r _ s' Hrow)
      as [[Hmis Hcount] | (record & Hrec & Hmis & Hcount)];
      cbn [count bump counter_eqb mismatches] in Hmis, Hcount.
    + exists records. rewrite Hmis, Hcount. now repeat split.
    + exists (records ++ [record])%list.
      rewrite Hmis, Hcount, I1, I2, length_app, <- app_assoc.
      split; [reflexivity |]. split; [cbn; lia |].
      apply Forall_app. split; [exact I3 |].
      constructor; [| constructor]. now exists r.
  - exists []. rewrite app_nil_r. split; [reflexivity |].
    split; [cbn [List.length]; lia | constructor].
Qed.

End MismatchFile.

(** X10: the records a completed run writes to the mismatch file are as
    many as the summary's [mismatched]; each one comes from a row of
    the input, keeps the cells of that row in every column but the
    three added ones, and holds text in the three added columns. *)
Theorem mismatch_records_come_from_rows `{Py.Platform}
    (args : Run.Args) (w : Run.World) (code : Z) (out : Run.Outputs) :
  Run.main args w = Py.Ok (code, Some out) ->
  Z.of_nat (List.length (Run.written_mismatches out))
  = Summary.mismatched (Run.summary out)
  /\ Forall (fun record =>
               exists r,
                 In r (Run.rows w)
                 /\ (forall col, ~ In col RunNotions.extra_columns ->
                       Run.row_get record col = Run.row_get r col)
                 /\ (forall col, In col RunNotions.extra_columns ->
                       exists text, Run.row_get record col = Some text))
       (Run.written_mismatches out).
Proof.
  intros Hmain.
  destruct (main_completed args w code out Hmain)
    as (names & cache_fields & cols & st & _ & _ & _ & _ & _ & _ & Hloop & Hsum
        & _ & Hwritten & _).
  destruct (loop_mismatch_records args w _ cols _ _ st Hloop)
    as (records & Hmis & Hcount & Hall).
  rewrite Hwritten, Hsum, Hmis. cbn in *. split; [lia |].
  eapply Forall_impl; [| exact Hall].
  intros record (r & Hin & Hrec). exists r. split; [exact Hin |].
  now apply record_of_cells.
Qed.

Lemma mismatch_records_come_from_rows_witness :
  exists out,
    Run.main (Demo.args 50 None 0)
      (Demo.world (Some "k") Demo.no_files (Some Demo.header)
         Demo.eight_rows Demo.answers) = Py.Ok (0, Some out)
    /\ Summary.mismatched (Run.summary out) = 3
    /\ Z.of_nat (List.length (Run.written_mismatches out))
       = Summary.mismatched (Run.summary out).
Proof.
  eexists. split; [vm_compute; reflexivity |]. split; [reflexivity |].
  apply (mismatch_records_come_from_rows (Demo.args 50 None 0)
           (Demo.world (Some "k") Demo.no_files (Some Demo.header)
              Demo.eight_rows Demo.answers) 0).
  vm_compute. reflexivity.
Defined.

(** X11: the header of the mismatch file is the input header followed
    by those of the three added columns that it lacks; and when every
    input row has cells for header columns only, every written record
    has cells for columns of the output header only. *)
Theorem mismatch_records_fit_the_output_header `{Py.Platform}
    (args : Run.Args) (w : Run.World) (code : Z) (out : Run.Outputs)
    (names : list string) :
  Run.main args w = Py.Ok (code, Some out) ->
  Run.fieldnames w = Some names ->
  (exists added,
      Run.output_fieldnames out = (names ++ added)%list
      /\ incl added RunNotions.extra_columns)
  /\ incl RunNotions.extra_columns (Run.output_fieldnames out)
  /\ ((forall r, In r (Run.rows w) -> incl (RunNotions.keys r) names) ->
      forall record, In record (Run.written_mismatches out) ->
                     incl (RunNotions.keys record) (Run.output_fieldnames out)).
Proof.
  intros Hmain Hnames.
  destruct (main_completed args w code out Hmain)
    as (names' & cache_fields & cols & st & _ & _ & Hnames' & _ & _ & _ & Hloop & _
        & Hheader & Hwritten & _).
  assert (names' = names) as -> by congruence.
  destruct (output_header RunNotions.extra_columns names) as [Hprefix Hextra].
  cbv zeta in Hprefix, Hextra. rewrite <- Hheader in Hprefix, Hextra.
  split; [exact Hprefix |]. split; [exact Hextra |].
  intros Hrows record Hin col Hcol.
  destruct (loop_mismatch_records args w _ cols _ _ st Hloop)
    as (records & Hmis & _ & Hall).
  rewrite Hwritten, Hmis in Hin. cbn in Hin.
  rewrite Forall_forall in Hall. destruct (Hall record Hin) as (r & Hr & Hrec).
  destruct (record_of_keys r record col Hrec Hcol) as [Hadded | Hkept].
  - now apply Hextra.
  - destruct Hprefix as (added & -> & _). apply in_or_app. left.
    exact (Hrows r Hr col Hkept).
Qed.

Lemma mismatch_records_fit_the_output_header_witness :
  exists out,
    Run.main (Demo.args 50 None 0)
      (Demo.world (Some "k") Demo.no_files
         (Some ["id"; "address"; "latitude"; "longitude"; "distance_meters"])
         [Demo.a_row "6" "1 Main St" "" "-74.0"] Demo.answers) = Py.Ok (0, Some out)
    /\ Run.output_fieldnames out
       = ["id"; "address"; "latitude"; "longitude"; "distance_meters";
          "google_latitude"; "google_longitude"]
    /\ incl RunNotions.extra_columns (Run.output_fieldnames out).
Proof.
  eexists. split; [vm_compute; reflexivity |]. split; [reflexivity |].
  apply (mismatch_records_fit_the_output_header (Demo.args 50 None 0)
           (Demo.world (Some "k") Demo.no_files
              (Some ["id"; "address"; "latitude"; "longitude"; "distance_meters"])
              [Demo.a_row "6" "1 Main St" "" "-74.0"] Demo.answers) 0 _
           ["id"; "address"; "latitude"; "longitude"; "distance_meters"]).
  - vm_compute. reflexivity.
  - reflexivity.
Defined.

(* ================================================================== *)
(** * The cache across runs                                            *)
(* ================================================================== *)

(** X12: the document a completed run with a cache file hands to
    [_save_cache] is well formed, so that [_load_cache] returns it
    unchanged once it is on disk; its entries are those of the loop's
    end, and every key of the cache the run loaded is still a key of
    it. *)
Theorem saved_cache_loads_back `{Py.Platform}
    (args : Run.Args) (w : Run.World) (code : Z) (out : Run.Outputs) :
  Run.nonempty (Run.cache_file args) = true ->
  Run.main args w = Py.Ok (code, Some out) ->
  exists fields entries,
    Run.saved_cache out = Some (Py.VDict fields)
    /\ Py.get fields "entries" = Py.VDict entries
    /\ RunNotions.well_formed_cache (Py.VDict fields) = true
    /\ (forall files path,
          Text.is_empty path = false ->
          files path = Cache.Loads (Py.VDict fields) ->
          Cache._load_cache files path = Py.Ok (Py.VDict fields))
    /\ (forall loaded loaded_entries key,
          Cache._load_cache (Run.cache_files w) (Run.text_or_empty (Run.cache_file args))
          = Py.Ok (Py.VDict loaded) ->
          Py.get loaded "entries" = Py.VDict loaded_entries ->
          Py.dict_mem loaded_entries key = true ->
          Py.dict_mem entries key = true).
Proof.
  intros Hfile Hmain.
  destruct (main_completed args w code out Hmain)
    as (names & cache_fields & cols & st & _ & _ & _ & Hwf & Hload & _ & Hloop & _
        & _ & _ & Hsaved & _).
  rewrite Hfile in Hsaved.
  exists (Py.dict_set cache_fields "entries" (Py.VDict (Run.cache_entries st))),
         (Run.cache_entries st).
  assert (Hentries : Py.get (Py.dict_set cache_fields "entries"
                               (Py.VDict (Run.cache_entries st))) "entries"
                     = Py.VDict (Run.cache_entries st)).
  { unfold Py.get. now rewrite dict_get_set_same. }
  assert (Hwf' : RunNotions.well_formed_cache
                   (Py.VDict (Py.dict_set cache_fields "entries"
                                (Py.VDict (Run.cache_entries st)))) = true).
  { cbn [RunNotions.well_formed_cache] in *. rewrite Hentries.
    unfold Py.get in *. rewrite dict_get_set_other by discriminate.
    apply andb_prop in Hwf as [-> _]. reflexivity. }
  split; [exact Hsaved |]. split; [exact Hentries |]. split; [exact Hwf' |].
  split.
  - intros files path Hpath Hdisk. now apply load_cache_keeps.
  - intros loaded loaded_entries key Hloaded Hget Hmem.
    rewrite (Hload Hfile) in Hloaded. injection Hloaded as <-.
    destruct (loop_ledger args w _ cols _ _ st Hloop) as (_ & _ & _ & _ & Hkeep).
    apply Hkeep. cbn [Run.initial Run.cache_entries]. now rewrite Hget.
Qed.

Lemma saved_cache_loads_back_witness :
  exists out fields,
    Run.main (Demo.args 50 (Some "cache.json") 0)
      (Demo.world (Some "k") Demo.no_files (Some Demo.header)
         [Demo.a_row "1" "1 Main St" "40.0" "-74.0"] Demo.answers)
    = Py.Ok (0, Some out)
    /\ Run.saved_cache out = Some (Py.VDict fields)
    /\ Py.dict_mem (match Py.get fields "entries" with
                    | Py.VDict entries => entries
                    | _ => []
                    end) "1 Main St" = true
    /\ Cache._load_cache (fun _ => Cache.Loads (Py.VDict fields)) "cache.json"
       = Py.Ok (Py.VDict fields).
Proof.
  destruct (saved_cache_loads_back (Demo.args 50 (Some "cache.json") 0)
              (Demo.world (Some "k") Demo.no_files (Some Demo.header)
                 [Demo.a_row "1" "1 Main St" "40.0" "-74.0"] Demo.answers)
              0
              (match Run.main (Demo.args 50 (Some "cache.json") 0)
                       (Demo.world (Some "k") Demo.no_files (Some Demo.header)
                          [Demo.a_row "1" "1 Main St" "40.0" "-74.0"] Demo.answers)
               with
               | Py.Ok (_, Some out) => out
               | _ => {| Run.summary := Run.summarize (Run.initial []);
                         Run.output_fieldnames := []; Run.written_mismatches := [];
                         Run.saved_cache := None; Run.effects := [] |}
               end)
              eq_refl)
    as (fields & entries & Hsaved & Hget & _ & Hback & _).
  { vm_compute. reflexivity. }
  eexists. exists fields. split; [vm_compute; reflexivity |].
  split; [exact Hsaved |]. split.
  - vm_compute in Hsaved. injection Hsaved as <-. vm_compute. reflexivity.
  - apply Hback; reflexivity.
Defined.

(* ================================================================== *)
(** * Tolerance, row limit and dry run                                 *)
(* ================================================================== *)

Section Options.

Import Py Geo Provider Cache Run Notions RunNotions.
Context `{Platform}.

Variables (args : Args) (w : World) (api_key : string) (cols : Columns).

Lemma leb_nan (x y : F64.float) : F64.is_nan y = true -> F64.leb x y = false.
Proof. destruct y; try discriminate. intros _. now destruct x. Qed.

(** With a tolerance that is not a number no row is matched. *)
Lemma row_unmatched (r : row) (st st' : State) :
  F64.is_nan (tolerance_meters args) = true ->
  process_row args w api_key cols r st = Ok st' ->
  count st' matched = count st matched.
Proof.
  intros Hnan Hrun.
  destruct (process_row_shape args w api_key cols r st st' Hrun)
    as [[_ ->] | [_ Hlooked]]; [reflexivity |].
  destruct Hlooked as [(record & _ & ->) | Hvalid].
  - match goal with
    | |- context [geocode_with_cache ?a ?b ?k ?ad ?s0] =>
        destruct (geocode_with_cache_frame a b k ad s0) as [Hframe _];
        pose proof (Hframe matched ltac:(discriminate) ltac:(discriminate)) as Hf
    end.
    cbv zeta in Hf. cbn [count bump append_mismatch counter_eqb] in *. exact Hf.
  - cbv zeta in Hvalid.
    match type of Hvalid with
    | context [geocode_with_cache ?a ?b ?k ?ad ?s0] =>
        destruct (geocode_with_cache_frame a b k ad s0) as [Hframe _];
        pose proof (Hframe matched ltac:(discriminate) ltac:(discriminate)) as Hf;
        set (st1 := snd (geocode_with_cache a b k ad s0)) in *
    end.
    cbv zeta in Hf.
    destruct Hvalid
      as [-> | [-> | (result & d & _ & _ & [[Hle _] | (_ & record & _ & ->)])]].
    + exact Hf.
    + exact Hf.
    + rewrite (leb_nan d _ Hnan) in Hle. discriminate Hle.
    + destruct (0 <? sleep_ms args);
        cbn [count bump append_mismatch emit counter_eqb]; exact Hf.
Qed.

(** The rows the loop reads: all of them, or as many as the limit
    leaves room for. *)
Lemma loop_total_rows (rs : list row) (st st' : State) :
  process_rows args w api_key cols rs st = Ok st' ->
  count st' total_rows
  = match max_rows args with
    | None => count st total_rows + Z.of_nat (List.length rs)
    | Some limit =>
        Z.max (count st total_rows)
          (Z.min (count st total_rows + Z.of_nat (List.length rs)) limit)
    end.
Proof.
  revert st. induction rs as [| r rs IH]; intros st Hrun; simpl in Hrun.
  - injection Hrun as <-. cbn [List.length]. destruct (max_rows args); lia.
  - destruct (max_rows args) as [limit |] eqn:Hlimit.
    + destruct (Z.leb_spec limit (count st total_rows)).
      { injection Hrun as <-. lia. }
      destruct (process_row args w api_key cols r (bump total_rows st))
        as [st1 |] eqn:Erow; [| discriminate].
      cbn [bind] in Hrun. rewrite (IH st1 Hrun).
      destruct (process_row_classified args w api_key cols r _ st1 Erow)
        as (_ & _ & ->).
      cbn [count bump counter_eqb List.length]. lia.
    + destruct (process_row args w api_key cols r (bump total_rows st))
        as [st1 |] eqn:Erow; [| discriminate].
      cbn [bind] in Hrun. rewrite (IH st1 Hrun).
      destruct (process_row_classified args w api_key cols r _ st1 Erow)
        as (_ & _ & ->).
      cbn [count bump counter_eqb List.length]. lia.
Qed.

(** The loop reads the world through the provider alone. *)
Lemma loop_same_provider (w' : World) (rs : list row) (st : State) :
  provider w' = provider w ->
  process_rows args w' api_key cols rs st = process_rows args w api_key cols rs st.
Proof.
  intros Hprovider.
  assert (Hrow : forall r s, process_row args w' api_key cols r s
                             = process_row args w api_key cols r s).
  { intros r s. unfold process_row, geocode_with_cache. now rewrite Hprovider. }
  revert st. induction rs as [| r rs IH]; intros st; [reflexivity |].
  cbn [process_rows]. rewrite Hrow.
  destruct (match max_rows args with Some _ => _ | None => _ end); [reflexivity |].
  destruct (process_row args w api_key cols r (bump total_rows st)); [| reflexivity].
  cbn [bind]. apply IH.
Qed.

(** The loop does not look at the rows beyond the limit. *)
Lemma loop_ignores_rows_beyond_limit (limit : Z) (rs : list row) (st : State) :
  max_rows args = Some limit ->
  process_rows args w api_key cols rs st
  = process_rows args w api_key cols
      (firstn (Z.to_nat (limit - count st total_rows)) rs) st.
Proof.
  intros Hlimit. revert st. induction rs as [| r rs IH]; intros st.
  - now rewrite firstn_nil.
  - cbn [process_rows]. rewrite Hlimit.
    destruct (Z.leb_spec limit (count st total_rows)) as [Hstop | Hgo].
    + replace (Z.to_nat (limit - count st total_rows)) with 0%nat by lia.
      reflexivity.
    + replace (Z.to_nat (limit - count st total_rows))
        with (S (Z.to_nat (limit - (count st total_rows + 1)))) by lia.
      cbn [firstn process_rows]. rewrite Hlimit.
      destruct (Z.leb_spec limit (count st total_rows)); [lia |].
      destruct (process_row args w api_key cols r (bump total_rows st))
        as [st1 |] eqn:Erow; [| reflexivity].
      cbn [bind]. rewrite (IH st1).
      destruct (process_row_classified args w api_key cols r _ st1 Erow)
        as (_ & _ & ->).
      cbn [count bump counter_eqb]. reflexivity.
Qed.

End Options.

(** X13: a tolerance that is not a number passes the check of line 385,
    and in the run that follows no row is matched: every row that reaches
    the distance check is a mismatch. *)
Theorem nan_tolerance_matches_no_row `{Py.Platform}
    (args : Run.Args) (w : Run.World) (code : Z) (out : Run.Outputs) :
  F64.is_nan (Run.tolerance_meters args) = true ->
  Run.main args w = Py.Ok (code, Some out) ->
  F64.ltb (Run.tolerance_meters args) F64.zero = false
  /\ Summary.matched (Run.summary out) = 0
  /\ Summary.distance_mismatches (Run.summary out)
     = Summary.checked_rows (Run.summary out).
Proof.
  intros Hnan Hmain.
  destruct (main_completed args w code out Hmain)
    as (names & cache_fields & cols & st & _ & _ & _ & _ & _ & _ & Hloop & Hsum & _).
  assert (Hmatched : Run.count st Run.matched = 0).
  { refine (process_rows_invariant args w _ cols
              (fun s => Run.count s Run.matched = 0) (Run.rows w) _
              (Run.initial _) st eq_refl Hloop).
    intros r s s' _ Hs Hrow.
    rewrite (row_unmatched args w _ cols r _ s' Hnan Hrow). exact Hs. }
  assert (Hrec : Notions.reconciled st).
  { eapply process_rows_reconciled; [| exact Hloop].
    unfold Notions.reconciled. cbn. lia. }
  destruct Hrec as (_ & Hmis & Hle).
  split.
  - destruct (Run.tolerance_meters args); try discriminate Hnan. reflexivity.
  - rewrite Hsum. unfold Run.summarize. cbn.
    split; [exact Hmatched |].
    destruct (Z.ltb_spec (Run.count st Run.mismatched
                          - Run.count st Run.invalid_coord_mismatches) 0); lia.
Qed.

Lemma nan_tolerance_matches_no_row_witness :
  let args := {| Run.input := "properties.csv";
                 Run.mismatches_output := "mismatches.csv";
                 Run.summary_output := None;
                 Run.id_column := "id"; Run.address_column := "address";
                 Run.lat_column := "latitude"; Run.lng_column := "longitude";
                 Run.tolerance_meters := F64.nan; Run.env_file := ".env";
                 Run.cache_file := None; Run.sleep_ms := 0; Run.max_rows := None;
                 Run.dry_run := false |} in
  exists out,
    Run.main args
      (Demo.world (Some "k") Demo.no_files (Some Demo.header)
         Demo.eight_rows Demo.answers) = Py.Ok (0, Some out)
    /\ Summary.checked_rows (Run.summary out) = 2
    /\ Summary.matched (Run.summary out) = 0
    /\ Summary.distance_mismatches (Run.summary out)
       = Summary.checked_rows (Run.summary out).
Proof.
  intros args. eexists. split; [vm_compute; reflexivity |]. split; [reflexivity |].
  apply (nan_tolerance_matches_no_row args
           (Demo.world (Some "k") Demo.no_files (Some Demo.header)
              Demo.eight_rows Demo.answers) 0).
  - reflexivity.
  - vm_compute. reflexivity.
Defined.

(** X14: with [--max-rows n] the run is the run on the first [n] rows
    of the input (on none for [n <= 0]): the rows beyond are neither
    counted nor looked up; and the summary's [total_rows] is the number
    of input rows, cut at the limit when there is one. *)
Theorem max_rows_truncates_the_input `{Py.Platform} (args : Run.Args) (w : Run.World) :
  (forall limit,
     Run.max_rows args = Some limit ->
     Run.main args w
     = Run.main args
         (RunNotions.with_rows w (firstn (Z.to_nat limit) (Run.rows w))))
  /\ (forall code out,
        Run.main args w = Py.Ok (code, Some out) ->
        Summary.total_rows (Run.summary out)
        = match Run.max_rows args with
          | None => Z.of_nat (List.length (Run.rows w))
          | Some limit =>
              Z.max 0 (Z.min (Z.of_nat (List.length (Run.rows w))) limit)
          end).
Proof.
  split.
  - intros limit Hlimit. unfold Run.main.
    cbn [RunNotions.with_rows Run.api_key_env Run.cache_files Run.fieldnames
         Run.rows Run.provider].
    destruct (F64.ltb _ _); [reflexivity |].
    destruct (negb (Run.dry_run args) && negb (Run.nonempty (Run.api_key_env w)));
      [reflexivity |].
    destruct (if negb (Run.dry_run args) && Run.nonempty (Run.cache_file args)
              then _ else _) as [cache |]; [| reflexivity].
    cbn [Py.bind].
    destruct (Run.fieldnames w) as [names |]; [| reflexivity].
    repeat match goal with
           | |- context [Run._required_column ?n ?r ?l] =>
               destruct (Run._required_column n r l); [| reflexivity]
           end.
    cbn [Py.bind]. destruct (Run.dry_run args); [reflexivity |].
    rewrite (loop_same_provider args w _ _ (RunNotions.with_rows w _))
      by reflexivity.
    match goal with
    | |- context [Run.process_rows args w ?k ?c (Run.rows w) ?s0] =>
        rewrite (loop_ignores_rows_beyond_limit args w k c limit (Run.rows w) s0 Hlimit)
    end.
    cbn [Run.initial Run.count]. rewrite Z.sub_0_r. reflexivity.
  - intros code out Hmain.
    destruct (main_completed args w code out Hmain)
      as (names & cache_fields & cols & st & _ & _ & _ & _ & _ & _ & Hloop & Hsum & _).
    rewrite Hsum. cbn [Run.summarize Summary.total_rows].
    rewrite (loop_total_rows args w _ cols _ _ st Hloop).
    cbn [Run.initial Run.count]. destruct (Run.max_rows args); lia.
Qed.

Lemma max_rows_truncates_the_input_witness :
  let args := {| Run.input := "properties.csv";
                 Run.mismatches_output := "mismatches.csv";
                 Run.summary_output := None;
                 Run.id_column := "id"; Run.address_column := "address";
                 Run.lat_column := "latitude"; Run.lng_column := "longitude";
                 Run.tolerance_meters := F64.of_Z 50; Run.env_file := ".env";
                 Run.cache_file := None; Run.sleep_ms := 0; Run.max_rows := Some 3;
                 Run.dry_run := false |} in
  let w := Demo.world (Some "k") Demo.no_files (Some Demo.header)
             Demo.eight_rows Demo.answers in
  Run.main args w = Run.main args (RunNotions.with_rows w (firstn 3 Demo.eight_rows))
  /\ exists out,
       Run.main args w = Py.Ok (0, Some out)
       /\ Summary.total_rows (Run.summary out) = 3
       /\ RunNotions.requests (Run.effects out) = 3.
Proof.
  intros args w.
  destruct (max_rows_truncates_the_input args w) as [Hcut Htotal].
  split; [exact (Hcut 3 eq_refl) |].
  eexists. split; [vm_compute; reflexivity |].
  split; [| reflexivity].
  apply (Htotal 0). vm_compute. reflexivity.
Defined.

(** X15: a dry run depends on the world through the header of the input
    alone: it reads no credential, no cache file and no row, and sends
    no request; it returns 0 or 2 without outputs, or leaves with the
    message of a missing column. *)
Theorem dry_run_reads_the_header_only `{Py.Platform}
    (args : Run.Args) (w w' : Run.World) :
  Run.dry_run args = true ->
  Run.fieldnames w = Run.fieldnames w' ->
  Run.main args w = Run.main args w'
  /\ (Run.main args w = Py.Ok (0, None)
      \/ Run.main args w = Py.Ok (2, None)
      \/ exists message, Run.main args w = Py.Raise (Py.SystemExit message)).
Proof.
  intros Hdry Hnames. unfold Run.main. rewrite Hdry, <- Hnames. cbn [negb andb].
  destruct (F64.ltb _ _); [split; [reflexivity | right; now left] |].
  cbn [Py.bind].
  destruct (Run.fieldnames w) as [names |]; [| split; [reflexivity | right; now left]].
  repeat match goal with
         | |- context [Run._required_column ?n ?r ?l] =>
             destruct (required_column_outcome n r l) as [[? ->] | [? ->]];
             cbn [Py.bind]; [| split; [reflexivity | right; right; eauto]]
         end.
  split; [reflexivity | now left].
Qed.

Lemma dry_run_reads_the_header_only_witness :
  let args := {| Run.input := "properties.csv";
                 Run.mismatches_output := "mismatches.csv";
                 Run.summary_output := None;
                 Run.id_column := "id"; Run.address_column := "address";
                 Run.lat_column := "latitude"; Run.lng_column := "longitude";
                 Run.tolerance_meters := F64.of_Z 50; Run.env_file := ".env";
                 Run.cache_file := Some "cache.json"; Run.sleep_ms := 0;
                 Run.max_rows := None; Run.dry_run := true |} in
  Run.main args (Demo.world None Demo.no_files (Some Demo.header) [] Demo.unreachable)
  = Run.main args (Demo.world (Some "k") Demo.no_files (Some Demo.header)
                     Demo.eight_rows Demo.answers)
  /\ Run.main args (Demo.world None Demo.no_files (Some Demo.header) []
                      Demo.unreachable) = Py.Ok (0, None).
Proof.
  intros args.
  destruct (dry_run_reads_the_header_only args
              (Demo.world None Demo.no_files (Some Demo.header) [] Demo.unreachable)
              (Demo.world (Some "k") Demo.no_files (Some Demo.header)
                 Demo.eight_rows Demo.answers) eq_refl eq_refl) as [Hsame _].
  split; [exact Hsame | reflexivity].
Defined.

(* ================================================================== *)
(** * Looking an address up again                                      *)
(* ================================================================== *)

Section LookupAgain.

Import Py Geo Provider Cache Run Notions RunNotions.
Context `{Platform}.





End LookupAgain.







(* ================================================================== *)
(** * The [.env] loader                                                *)
(* ================================================================== *)

Section EnvFile.

Import Py Env RunNotions.

(** The loop never touches a variable that is set. *)
Lemma load_lines_keeps (lines : list string) (env : environ) (name value : string) :
  dict_get env name = Some value ->
  dict_get (snd (load_lines lines env)) name = Some value.
Proof.
  revert env. induction lines as [| line rest IH]; intros env Hget; [exact Hget |].
  cbn [load_lines].
  destruct (assignment line) as [[key text] |]; [| now apply IH].
  destruct (Text.is_empty key); cbn [negb andb]; [now apply IH |].
  destruct (dict_mem env key) eqn:Hmem; cbn [negb]; [now apply IH |].
  unfold setenv. destruct (has_nul key || has_nul text); [exact Hget |].
  apply IH. rewrite dict_get_set_other; [exact Hget |].
  intros <-. unfold dict_mem in Hmem. now rewrite Hget in Hmem.
Qed.



End EnvFile.

(** X19: [_load_env_file_if_present] never changes a variable that is
    already set in the environment, whatever the file holds and however
    the call ends. *)
Theorem env_file_never_overrides
    (files : string -> Env.env_file_state) (env_file : string)
    (env : Env.environ) (name value : string) :
  Py.dict_get env name = Some value ->
  Py.dict_get (snd (Env._load_env_file_if_present files env_file env)) name
  = Some value.
Proof.
  intros Hget. unfold Env._load_env_file_if_present.
  destruct (Text.is_empty env_file); [exact Hget |].
  destruct (files env_file) as [| e | lines failure]; try exact Hget.
  pose proof (load_lines_keeps lines env name value Hget) as Hkeeps.
  destruct (Env.load_lines lines env) as [outcome env']. exact Hkeeps.
Qed.

Lemma env_file_never_overrides_witness :
  let file := Env.Reads ["GOOGLE_MAPS_API_KEY=from-file"; "OTHER=1"] None in
  let env := [("GOOGLE_MAPS_API_KEY", "from-environment")] in
  let env' := snd (Env._load_env_file_if_present (fun _ => file) ".env" env) in
  Py.dict_get env' "GOOGLE_MAPS_API_KEY" = Some "from-environment"
  /\ Py.dict_get env' "OTHER" = Some "1".
Proof.
  intros file env env'. split; [| reflexivity].
  apply (env_file_never_overrides (fun _ => file) ".env" env). reflexivity.
Defined.



(** What the loader makes of quotes, spaces and a second "=". *)
Example env_assignments :
  map Env.assignment
    ["KEY=value";
     "  KEY  =  spaced value  ";
     ("KEY=" ++ String Env.double_quote ("quoted" ++ String Env.double_quote ""))%string;
     "KEY='a=b'";
     "export KEY=value";
     "KEY=value # trailing";
     "# KEY=value";
     "KEY";
     "=value"]
  = [Some ("KEY", "value");
     Some ("KEY", "spaced value");
     Some ("KEY", "quoted");
     Some ("KEY", "a=b");
     Some ("export KEY", "value");
     Some ("KEY", "value # trailing");
     None;
     None;
     Some ("", "value")].
Proof. reflexivity. Qed.

(* ================================================================== *)
(** * The texts of the ambiguity classifier                            *)
(* ================================================================== *)

(** X21: every reason [_ambiguous_reason] returns begins with
    "ambiguous: ", so it is never empty: the test [reason is None] of
    line 487 and the test [if reason] of line 523 agree on every
    result. *)
Theorem ambiguous_reason_is_never_empty `{Py.Platform}
    (result : Provider.GeocodeResult) (reason : option string) :
  Provider._ambiguous_reason result = Py.Ok reason ->
  Run.nonempty reason = negb (match reason with None => true | Some _ => false end)
  /\ (forall text, reason = Some text ->
        exists detail, text = ("ambiguous: " ++ detail)%string).
Proof.
  unfold Provider._ambiguous_reason.
  destruct (negb (String.eqb (Provider.status result) "OK"));
    [intros [= <-]; split; [reflexivity | discriminate] |].
  destruct (negb (Provider.result_count result =? 1)).
  { intros [= <-]. split; [reflexivity |]. intros text [= <-]. eexists. reflexivity. }
  destruct (Provider.partial_match result).
  { intros [= <-]. split; [reflexivity |]. intros text [= <-]. eexists. reflexivity. }
  destruct (Py.or_else (Provider.location_type result) (Py.VStr ""));
    try discriminate.
  destruct (negb (String.eqb (Text.upper s) "ROOFTOP")).
  - intros [= <-]. split; [reflexivity |]. intros text [= <-]. eexists. reflexivity.
  - intros [= <-]. split; [reflexivity | discriminate].
Qed.

Lemma ambiguous_reason_is_never_empty_witness :
  let result :=
    {| Provider.status := "OK"; Provider.formatted_address := Py.VNone;
       Provider.latitude := Py.VNone; Provider.longitude := Py.VNone;
       Provider.result_count := 1; Provider.partial_match := false;
       Provider.location_type := Py.VNone;
       Provider.error_message := Py.VNone; Provider.raw := Py.VDict [] |} in
  Provider._ambiguous_reason result = Py.Ok (Some "ambiguous: location_type=UNKNOWN")
  /\ Run.nonempty (Some "ambiguous: location_type=UNKNOWN") = true.
Proof.
  intros result. split; [reflexivity |].
  exact (proj1 (ambiguous_reason_is_never_empty result
                  (Some "ambiguous: location_type=UNKNOWN") eq_refl)).
Defined.

(* ================================================================== *)
(** * Rows with valid stored coordinates                               *)
(* ================================================================== *)

Section ValidRows.

Import Py Geo Provider Cache Run Notions RunNotions.
Context `{Platform}.

Variables (args : Args) (w : World) (api_key : string) (cols : Columns).



End ValidRows.








(* ================================================================== *)
(** * A cache file that cannot be used                                 *)
(* ================================================================== *)

Section UnusableCache.

Import Py Provider Cache Run Notions RunNotions.

(** A file that does not hold a well-formed document loads as the
    fresh cache. *)
Lemma load_cache_unusable (files : string -> cache_file_state) (path : string) :
  match files path with
  | Loads data => well_formed_cache data = false
  | _ => True
  end ->
  _load_cache files path = Ok fresh.
Proof.
  intros Hfile. unfold _load_cache.
  destruct (Text.is_empty path); [reflexivity |].
  destruct (files path) as [| e | data]; cbn [bind try_except]; try reflexivity.
  destruct data as [| | | | | | fields]; try reflexivity.
  cbn [well_formed_cache] in Hfile.
  destruct (eq_int (get fields "version") CACHE_VERSION); cbn [negb]; [| reflexivity].
  cbn [andb] in Hfile. now rewrite Hfile.
Qed.

End UnusableCache.

(** X25: a cache file that cannot be opened or decoded, or whose
    document is not a dict with version 1 and a dict of entries, is to
    the whole run what a missing file is: same exit, same summary, same
    records, same requests, and the same document handed to
    [_save_cache], which then replaces the file. *)
Theorem unusable_cache_file_counts_as_none `{Py.Platform}
    (args : Run.Args) (w : Run.World) :
  match Run.cache_files w (Run.text_or_empty (Run.cache_file args)) with
  | Cache.Loads data => RunNotions.well_formed_cache data = false
  | _ => True
  end ->
  Run.main args w
  = Run.main args (RunNotions.with_cache_files w (fun _ => Cache.NoSuchFile)).
Proof.
  intros Hfile. unfold Run.main.
  cbn [RunNotions.with_cache_files Run.api_key_env Run.cache_files Run.fieldnames
       Run.rows Run.provider].
  rewrite (load_cache_unusable _ _ Hfile).
  rewrite (load_cache_unusable (fun _ => Cache.NoSuchFile)
             (Run.text_or_empty (Run.cache_file args)) I).
  destruct (F64.ltb _ _); [reflexivity |].
  destruct (negb (Run.dry_run args) && negb (Run.nonempty (Run.api_key_env w)));
    [reflexivity |].
  destruct (if negb (Run.dry_run args) && Run.nonempty (Run.cache_file args)
            then _ else _) as [cache |]; [| reflexivity].
  cbn [Py.bind].
  destruct (Run.fieldnames w) as [names |]; [| reflexivity].
  repeat match goal with
         | |- context [Run._required_column ?n ?r ?l] =>
             destruct (Run._required_column n r l); [| reflexivity]
         end.
  cbn [Py.bind]. destruct (Run.dry_run args); [reflexivity |].
  rewrite (loop_same_provider args w _ _
             (RunNotions.with_cache_files w (fun _ => Cache.NoSuchFile)))
    by reflexivity.
  reflexivity.
Qed.

Lemma unusable_cache_file_counts_as_none_witness :
  let old := Py.VDict [("version", Py.VInt 2);
                       ("entries", Py.VDict [("1 Main St", Py.VDict [])])] in
  let args := Demo.args 50 (Some "cache.json") 0 in
  let w := Demo.world (Some "k") (fun _ => Cache.Loads old) (Some Demo.header)
             Demo.eight_rows Demo.answers in
  Run.main args w
  = Run.main args (Demo.world (Some "k") Demo.no_files (Some Demo.header)
                     Demo.eight_rows Demo.answers).
Proof.
  intros old args w.
  exact (unusable_cache_file_counts_as_none args w eq_refl).
Defined.

(* ================================================================== *)
(** * Leaving with a message                                           *)
(* ================================================================== *)

Section Messages.

Import Py Geo Provider Cache Run Notions RunNotions.
Context `{Platform}.






Variables (args : Args) (w : World) (api_key : string) (cols : Columns).




End Messages.



(* ================================================================== *)
(** * Rows without an address, and damaged cache entries               *)
(* ================================================================== *)





(* ================================================================== *)
(** * The scenarios of the specification, run on the small-angle
      platform                                                         *)
(* ================================================================== *)

Example split_on_whitespace :
  Text.split ("  12  Main" ++ Demo.tab ++ "St ") = ["12"; "Main"; "St"].
Proof. reflexivity. Qed.

Example normalize_respaced :
  Cache._normalize_address Demo.respaced_address = "1 Main St".
Proof. reflexivity. Qed.

Example int_to_text : (Text.of_Z 0, Text.of_Z 12, Text.of_Z (-3)) = ("0", "12", "-3").
Proof. reflexivity. Qed.

Example float_of_str_accepts :
  map Py.float_of_str ["40.0"; " -74.0001 "; "1_000.5e-1"; "+.5E1"; "-NaN"; "+iNf"]
  = [Py.Ok (F64.of_Z 40);
     Py.Ok (F64.of_decimal true 740001 (-4));
     Py.Ok (F64.of_decimal false 10005 (-2));
     Py.Ok (F64.of_Z 5);
     Py.Ok F64.nan;
     Py.Ok (F64.inf false)].
Proof. vm_compute. reflexivity. Qed.

Example float_of_str_rejects :
  map Py.float_of_str
    [""; "."; "1__0"; "_1"; "1e"; "0x10"; "1 2"; "--1"; "12abc";
     String (ascii_of_nat 28) "1.5"]
  = repeat (Py.Raise (Py.Exc Py.ValueError)) 10.
Proof. vm_compute. reflexivity. Qed.

Example tenth_is_rounded_to_nearest :
  F64.of_decimal false 1 (-1) = S754_finite false 7205759403792794 (-56).
Proof. vm_compute. reflexivity. Qed.

Example rooftop_reply_decoded :
  Provider.geocode_address Demo.rooftop = Py.Ok Demo.rooftop_result.
Proof. vm_compute. reflexivity. Qed.

(** Section 8 of the specification: the four ambiguity examples. *)
Example ambiguity_examples :
  let result count partial location :=
    {| Provider.status := "OK"; Provider.formatted_address := Py.VNone;
       Provider.latitude := Demo.lat_40_0001; Provider.longitude := Demo.lng_74_0001;
       Provider.result_count := count; Provider.partial_match := partial;
       Provider.location_type := Py.VStr location;
       Provider.error_message := Py.VNone; Provider.raw := Py.VDict [] |} in
  Provider._ambiguous_reason (result 2 false "ROOFTOP")
  = Py.Ok (Some "ambiguous: result_count=2")
  /\ Provider._ambiguous_reason (result 1 true "ROOFTOP")
     = Py.Ok (Some "ambiguous: partial_match=true")
  /\ Provider._ambiguous_reason (result 1 false "RANGE_INTERPOLATED")
     = Py.Ok (Some "ambiguous: location_type=RANGE_INTERPOLATED")
  /\ Provider._ambiguous_reason (result 1 false "Rooftop") = Py.Ok None.
Proof. repeat split. Qed.

(** The row of the end-to-end scenarios is matched at 50 m and
    mismatched at 5 m; a row without an address is skipped without a
    request. *)
Example end_to_end_rows :
  let w := Demo.world (Some "k") Demo.no_files (Some Demo.header) [] Demo.answers in
  let run tolerance r :=
    match Run.process_row (Demo.args tolerance None 0) w "k" Demo.cols r
            (Run.initial []) with
    | Py.Ok st =>
        Some (Run.count st Run.matched, Run.count st Run.mismatched,
              Run.count st Run.skipped_missing_address,
              List.length (Run.mismatches st), Run.trace st)
    | Py.Raise _ => None
    end in
  run 50 (Demo.a_row "1" "1 Main St" "40.0" "-74.0")
  = Some (1, 0, 0, 0%nat, [Run.Request "1 Main St"])
  /\ run 5 (Demo.a_row "1" "1 Main St" "40.0" "-74.0")
     = Some (0, 1, 0, 1%nat, [Run.Request "1 Main St"])
  /\ run 50 (Demo.a_row "1" "1 Main St" "" "-74.0")
     = Some (0, 1, 0, 1%nat, [Run.Request "1 Main St"])
  /\ run 50 (Demo.a_row "1" "   " "40.0" "-74.0")
     = Some (0, 0, 1, 0%nat, []).
Proof. vm_compute. repeat split. Qed.

(** A run over the eight sample rows. *)
Example eight_rows_summary :
  match Run.main (Demo.args 50 None 0)
          (Demo.world (Some "k") Demo.no_files (Some Demo.header)
             Demo.eight_rows Demo.answers) with
  | Py.Ok (code, Some out) => Some (code, Run.summary out)
  | _ => None
  end
  = Some (0,
          {| Summary.total_rows := 8; Summary.checked_rows := 2;
             Summary.matched := 1; Summary.mismatched := 3;
             Summary.invalid_coord_mismatches := 2;
             Summary.distance_mismatches := 1;
             Summary.skipped_missing_address := 1;
             Summary.skipped_ambiguous := 1;
             Summary.skipped_geocode_failure := 2;
             Summary.cache_hits := 0; Summary.cache_misses := 7;
             Summary.accounted_rows := 8 |}).
Proof. vm_compute. reflexivity. Qed.

(** A dry run checks the columns, here through the case-insensitive
    match of "Address", and stops. *)
Example dry_run_stops_after_columns :
  Run.main {| Run.input := "properties.csv";
              Run.mismatches_output := "mismatches.csv";
              Run.summary_output := None;
              Run.id_column := "id"; Run.address_column := "Address";
              Run.lat_column := "latitude"; Run.lng_column := "longitude";
              Run.tolerance_meters := F64.of_Z 50; Run.env_file := ".env";
              Run.cache_file := None; Run.sleep_ms := 0; Run.max_rows := None;
              Run.dry_run := true |}
    (Demo.world None Demo.no_files (Some Demo.header) Demo.eight_rows Demo.unreachable)
  = Py.Ok (0, None).
Proof. vm_compute. reflexivity. Qed.
